(** * Sage: the resumable analysis engine of [sage.py]

    A shallow embedding of [BlackDuckSage] (src/sage.py) and the statements
    of its specification that can be settled on it.

    Conventions of the embedding.
    - Entity records, paged results and the checkpoint document are JSON
      values ([value]); a Python [dict] with string keys is a
      [gmap string value], so two dictionaries are equal when their lookups
      agree, as in Python.
    - Python exceptions are the [Raise] outcome of [result]; code that
      mutates [self] runs in the state monad [M], which keeps the mutations
      made before an exception, as Python does.
    - The REST client ([self.hub]) is an oracle, [HubInstance]: each call
      either returns a JSON value, raises, or is interrupted by SIGINT or
      SIGTERM while it is in flight, in which case the registered handler
      [_signal_handler] runs on top of the call.
    - Strings are byte strings; [logging] calls have no effect on the
      analysis state and are left out. *)

From Stdlib Require Import QArith.
From stdpp Require Import base gmap sets list strings pretty.

#[local] Set Warnings "-register-all".
#[local] Open Scope string_scope.

(** ** JSON values and Python exceptions *)

Inductive value :=
| VNull
| VBool (b : bool)
| VInt (z : Z)
| VFloat (q : Q)
| VStr (s : string)
| VList (l : list value)
| VDict (d : gmap string value).

Inductive exn :=
| KeyError (k : string)
| TypeError
| AttributeError
| OSError (msg : string)
| FileNotFoundError
| HubError (msg : string).

Inductive result (A : Type) :=
| Ok (a : A)
| Raise (e : exn).
Arguments Ok {A} a.
Arguments Raise {A} e.

#[export] Instance result_ret : MRet result := λ A a, Ok a.
#[export] Instance result_bind : MBind result := λ A B f m,
  match m with
  | Ok a => f a
  | Raise e => Raise e
  end.
#[export] Instance result_fmap : FMap result := λ A B f m,
  match m with
  | Ok a => Ok (f a)
  | Raise e => Raise e
  end.

(** [mapM]: a list comprehension whose element expression may raise. *)
Fixpoint result_mapM {A B} (f : A → result B) (l : list A) : result (list B) :=
  match l with
  | [] => Ok []
  | x :: l' => y ← f x; ys ← result_mapM f l'; mret (y :: ys)
  end.

(** [[f(x) for x in l if p(x)]], where both [p] and [f] may raise. *)
Fixpoint result_filter_map {A B} (p : A → result bool) (f : A → result B)
    (l : list A) : result (list B) :=
  match l with
  | [] => Ok []
  | x :: l' =>
      b ← p x;
      if b : bool
      then y ← f x; ys ← result_filter_map p f l'; mret (y :: ys)
      else result_filter_map p f l'
  end.

(** ** Strings: [str.split], [str.join], [str.endswith], [in] *)

(** Python's whitespace in the ASCII range: TAB, LF, VT, FF, CR, the four
    separators 0x1c-0x1f and the space. *)
Definition is_space (a : Ascii.ascii) : bool :=
  let n := Ascii.nat_of_ascii a in
  ((9 <=? n)%nat && (n <=? 13)%nat) || ((28 <=? n)%nat && (n <=? 32)%nat).

(** [message.split()]: the maximal runs of non-whitespace characters;
    [cur] is the run being read. *)
Fixpoint split_from (cur : string) (s : string) : list string :=
  match s with
  | EmptyString => if decide (cur = "") then [] else [cur]
  | String a s' =>
      if is_space a
      then (if decide (cur = "") then split_from "" s' else cur :: split_from "" s')
      else split_from (cur +:+ String a "") s'
  end.

Definition split (s : string) : list string := split_from "" s.

Fixpoint join (sep : string) (l : list string) : string :=
  match l with
  | [] => ""
  | [x] => x
  | x :: l' => x +:+ sep +:+ join sep l'
  end.

Definition _remove_white_space (message : string) : string :=
  join " " (split message).

Definition endswith (s suffix : string) : bool :=
  let n := String.length s in
  let m := String.length suffix in
  (m <=? n)%nat && String.eqb (String.substring (n - m) m s) suffix.

(** [sub in s] on strings. *)
Fixpoint is_infix (sub s : string) : bool :=
  String.prefix sub s ||
  match s with
  | EmptyString => false
  | String _ s' => is_infix sub s'
  end.

Fixpoint chars (s : string) : list string :=
  match s with
  | EmptyString => []
  | String a s' => String a "" :: chars s'
  end.

(** ** The operators the engine applies to JSON values *)

Definition is_empty_dict (d : gmap string value) : bool :=
  match map_to_list d with
  | [] => true
  | _ => false
  end.

(** Truth value of an object ([if scans and ...]). *)
Definition truthy (v : value) : bool :=
  match v with
  | VNull => false
  | VBool b => b
  | VInt z => negb (z =? 0)%Z
  | VFloat q => negb (Qeq_bool q 0)
  | VStr s => negb (String.eqb s "")
  | VList l => match l with [] => false | _ => true end
  | VDict d => negb (is_empty_dict d)
  end.

(** [v[k]] for a string [k]: only a dict can be indexed by a string. *)
Definition getitem (v : value) (k : string) : result value :=
  match v with
  | VDict d =>
      match d !! k with
      | Some x => Ok x
      | None => Raise (KeyError k)
      end
  | _ => Raise TypeError
  end.

Definition is_str (k : string) (v : value) : bool :=
  match v with
  | VStr s => String.eqb s k
  | _ => false
  end.

(** [k in v] for a string [k]. *)
Definition contains (k : string) (v : value) : result bool :=
  match v with
  | VDict d => Ok (bool_decide (is_Some (d !! k)))
  | VList l => Ok (existsb (is_str k) l)
  | VStr s => Ok (is_infix k s)
  | _ => Raise TypeError
  end.

Definition py_len (v : value) : result nat :=
  match v with
  | VList l => Ok (length l)
  | VDict d => Ok (size d)
  | VStr s => Ok (String.length s)
  | _ => Raise TypeError
  end.

(** The elements a [for] loop or a comprehension visits. *)
Definition py_iter (v : value) : result (list value) :=
  match v with
  | VList l => Ok l
  | VDict d => Ok (VStr <$> (map_to_list d).*1)
  | VStr s => Ok (VStr <$> chars s)
  | _ => Raise TypeError
  end.

(** [v == {}]. *)
Definition is_empty_dict_value (v : value) : bool :=
  match v with
  | VDict d => is_empty_dict d
  | _ => false
  end.

(** [n.endswith(suffix)]: only [str] has the method. *)
Definition py_endswith (n : value) (suffix : string) : result bool :=
  match n with
  | VStr s => Ok (endswith s suffix)
  | _ => Raise AttributeError
  end.

(** A ledger key.  The ledger holds strings: a version key is built by
    [str.format], a project key is the record's [name], a JSON string
    (Data Model: identity = name).  A list or an object is unhashable
    ([TypeError]); a name that is another JSON scalar is outside the data
    model and stops the model the same way. *)
Definition hashable (v : value) : result string :=
  match v with
  | VStr s => Ok s
  | _ => Raise TypeError
  end.

Definition as_list (v : value) : result (list value) :=
  match v with
  | VList l => Ok l
  | _ => Raise TypeError
  end.

(** ** The REST client, the engine and its analysis state *)

(** What a call on the REST client does: it returns the parsed JSON body,
    it raises, or a termination signal arrives while it is in flight. *)
Inductive reply :=
| Returns (v : value)
| Fails (e : exn)
| Interrupted.

Record HubInstance := {
  get_projects : reply;                        (* limit=99999 *)
  get_project_versions : value → reply;        (* project, limit=9999 *)
  get_version_codelocations : value → reply;   (* version *)
  get_codelocations : reply;                   (* limit=999999, unmapped=True *)
  get_urlbase : string
}.

(** The fields [__init__] sets once; of the thresholds only the three the
    analysis reads are kept. *)
Record BlackDuckSage := {
  hub : HubInstance;
  max_versions_per_project : Z;
  max_scans_per_version : Z;
  max_time_to_retrieve_projects : Z
}.

(** The part of [str()] that is left to the interpreter: the decimal
    rendering of a float and the [repr] of a list or a dict. *)
Record Python := {
  repr_float : Q → string;
  repr_container : value → string
}.

(** The fields the analysis mutates (AnalysisState of the specification). *)
Record AnalysisState := {
  other_issues : list value;
  suspect_projects : list value;
  suspect_versions : list value;
  unmapped_scans : value;
  reviewed_projects : gset string;
  reviewed_versions : gset string
}.

(** The engine's state together with the content of [self.file]; the file
    holds the JSON document, its text being [json]'s business. *)
Record machine := {
  state : AnalysisState;
  disk : option value
}.

Definition M (A : Type) : Type := machine → result A * machine.

#[export] Instance M_ret : MRet M := λ A a m, (Ok a, m).
#[export] Instance M_bind : MBind M := λ A B f c m,
  match c m with
  | (Ok a, m') => f a m'
  | (Raise e, m') => (Raise e, m')
  end.

Definition lift {A} (r : result A) : M A := λ m, (r, m).
Definition raise {A} (e : exn) : M A := λ m, (Raise e, m).
Definition gets {A} (f : AnalysisState → A) : M A := λ m, (Ok (f (state m)), m).
Definition modify (f : AnalysisState → AnalysisState) : M unit :=
  λ m, (Ok (), {| state := f (state m); disk := disk m |}).
Definition write_file (doc : value) : M unit :=
  λ m, (Ok (), {| state := state m; disk := Some doc |}).

(** [try: body / except: handler / else: orelse]: the bare [except] takes
    every exception of [body], none of [orelse]. *)
Definition try_except_else {A B} (body : M A) (handler : M B) (orelse : A → M B)
    : M B :=
  λ m, match body m with
       | (Ok a, m') => orelse a m'
       | (Raise _, m') => handler m'
       end.

Fixpoint for_each {A} (l : list A) (body : A → M unit) : M unit :=
  match l with
  | [] => mret ()
  | x :: l' => body x;; for_each l' body
  end.

Definition append_other_issue (x : value) (s : AnalysisState) : AnalysisState :=
  {| other_issues := other_issues s ++ [x];
     suspect_projects := suspect_projects s;
     suspect_versions := suspect_versions s;
     unmapped_scans := unmapped_scans s;
     reviewed_projects := reviewed_projects s;
     reviewed_versions := reviewed_versions s |}.

Definition append_suspect_project (x : value) (s : AnalysisState) : AnalysisState :=
  {| other_issues := other_issues s;
     suspect_projects := suspect_projects s ++ [x];
     suspect_versions := suspect_versions s;
     unmapped_scans := unmapped_scans s;
     reviewed_projects := reviewed_projects s;
     reviewed_versions := reviewed_versions s |}.

Definition append_suspect_version (x : value) (s : AnalysisState) : AnalysisState :=
  {| other_issues := other_issues s;
     suspect_projects := suspect_projects s;
     suspect_versions := suspect_versions s ++ [x];
     unmapped_scans := unmapped_scans s;
     reviewed_projects := reviewed_projects s;
     reviewed_versions := reviewed_versions s |}.

Definition set_unmapped_scans (x : value) (s : AnalysisState) : AnalysisState :=
  {| other_issues := other_issues s;
     suspect_projects := suspect_projects s;
     suspect_versions := suspect_versions s;
     unmapped_scans := x;
     reviewed_projects := reviewed_projects s;
     reviewed_versions := reviewed_versions s |}.

Definition add_reviewed_project (k : string) (s : AnalysisState) : AnalysisState :=
  {| other_issues := other_issues s;
     suspect_projects := suspect_projects s;
     suspect_versions := suspect_versions s;
     unmapped_scans := unmapped_scans s;
     reviewed_projects := {[ k ]} ∪ reviewed_projects s;
     reviewed_versions := reviewed_versions s |}.

Definition add_reviewed_version (k : string) (s : AnalysisState) : AnalysisState :=
  {| other_issues := other_issues s;
     suspect_projects := suspect_projects s;
     suspect_versions := suspect_versions s;
     unmapped_scans := unmapped_scans s;
     reviewed_projects := reviewed_projects s;
     reviewed_versions := {[ k ]} ∪ reviewed_versions s |}.

(** ** Message templates *)

Definition LF : string := String (Ascii.ascii_of_nat 10) "".
Definition TAB : string := String (Ascii.ascii_of_nat 9) "".

(** The line break of a triple-quoted template: a newline and the
    indentation of the next source line. *)
Definition br (tabs : nat) : string := LF +:+ String.concat "" (replicate tabs TAB).

Definition zero_scans_message (project_name version_name : string) : string :=
  "Project " +:+ project_name +:+ ", version " +:+ version_name
  +:+ " has 0 scans. Should it be removed?".

Definition too_many_scans_template (project_name version_name num recommended : string)
    : string :=
  "Project " +:+ project_name +:+ ", version " +:+ version_name +:+ " has " +:+ num
  +:+ " scans which is greater than " +:+ br 5
  +:+ "the maximum recommended versions of " +:+ recommended
  +:+ ". Review the scans to make sure there are not" +:+ br 5
  +:+ "redundant scans all mapped to this project version. Look for scans with similar names" +:+ br 5
  +:+ "or sizes. If redundant scans are found, you should delete them and update the scanning" +:+ br 5
  +:+ "setup to use --detect.code.location.name with hub-detect to override scan names and " +:+ br 5
  +:+ "delete redundant scans.".

Definition zero_versions_message (project_name : string) : string :=
  "Project " +:+ project_name +:+ " has 0 versions. Should it be removed?".

Definition too_many_versions_head (project_name num recommended : string) : string :=
  "Project " +:+ project_name +:+ " has " +:+ num
  +:+ " versions which is greater than the recommend maximum of " +:+ recommended +:+ ".".

Definition no_released_clause : string :=
  "  There are 0 versions that have been released.".
Definition no_archived_clause : string :=
  "  There are 0 versions that have been archived.".

Definition review_versions_advice : string :=
  "You should review these versions and remove extraneous ones, and their scans, " +:+ br 4
  +:+ "to reclaim space and reduce clutter. Typically there should be one version per development " +:+ br 4
  +:+ "branch, and one version per release.  When new vulnerabilities are published you want" +:+ br 4
  +:+ "to be able to quickly identify which projects are affected and take action." +:+ br 4
  +:+ "Keeping a large number of un-released versions in the system will make that difficult." +:+ br 4
  +:+ "And accruing a large number of versions per project can lead to serious performance degradation." +:+ br 4
  +:+ "Look at https://github.com/blackducksoftware/hub-rest-api-python/tree/master/examples for python examples" +:+ br 4
  +:+ "for finding/deleting/removing versions and their scans".

Definition slow_listing_template (elapsed recommended : string) : string :=
  "It took " +:+ elapsed
  +:+ " seconds to retrieve all the project info which is greater " +:+ br 4
  +:+ "than the recommended max of " +:+ recommended +:+ " seconds".

Definition unmapped_scans_message : string :=
  "Unmapped scans represent scanning data that is not mapped to any project-version, and hence, they are potentially consuming space that should be reclaimed.".

(** ** The engine *)

Definition COMMON_ATTRIBUTES : list string :=
  ["name"; "versionName"; "createdAt"; "createdBy"; "distribution";
   "phase"; "scanSize"; "settingUpdatedAt"; "updatedAt"; "updatedBy"].

(** One round of [for attr in COMMON_ATTRIBUTES: if attr in obj: ...]. *)
Definition copy_attribute (obj : value) (acc : result (gmap string value))
    (attr : string) : result (gmap string value) :=
  d ← acc;
  present ← contains attr obj;
  if present : bool
  then v ← getitem obj attr; mret (<[attr := v]> d)
  else mret d.

Definition _copy_common_attributes (obj : value) (kwargs : gmap string value)
    : result (gmap string value) :=
  common_attribute_key_values ← foldl (copy_attribute obj) (Ok ∅) COMMON_ATTRIBUTES;
  meta ← getitem obj "_meta";
  href ← getitem meta "href";
  let common_attribute_key_values := <["url" := href]> common_attribute_key_values in
  mret (map_fold (λ k v acc, <[k := v]> acc) common_attribute_key_values kwargs).

(** [set(v)] on a sequence of keys. *)
Definition py_set (v : value) : result (gset string) :=
  l ← py_iter v;
  ks ← result_mapM hashable l;
  mret (list_to_set ks).

Definition new_state : AnalysisState :=
  {| other_issues := [];
     suspect_projects := [];
     suspect_versions := [];
     unmapped_scans := VDict ∅;
     reviewed_projects := ∅;
     reviewed_versions := ∅ |}.

(** The analysis state [__init__] builds: empty in mode ["new"], read from
    the file otherwise.  The findings are sequences in the checkpoint
    format; a document in which they are not is refused here, where Python
    would fail at the first [append]. *)
Definition __init__ (mode : string) (file : option value) : result AnalysisState :=
  if String.eqb mode "new" then Ok new_state
  else
    match file with
    | None => Raise FileNotFoundError
    | Some sage_data =>
        oi ← getitem sage_data "other_issues";
        oi ← as_list oi;
        _ ← getitem sage_data "unmapped_scans";
        sp ← getitem sage_data "suspect_projects";
        sp ← as_list sp;
        sv ← getitem sage_data "suspect_versions";
        sv ← as_list sv;
        us ← getitem sage_data "unmapped_scans";
        rp ← getitem sage_data "reviewed_projects";
        rp ← py_set rp;
        rv ← getitem sage_data "reviewed_versions";
        rv ← py_set rv;
        mret {| other_issues := oi;
                suspect_projects := sp;
                suspect_versions := sv;
                unmapped_scans := us;
                reviewed_projects := rp;
                reviewed_versions := rv |}
    end.

(** The document [_write_results] dumps; [rp] and [rv] are the two ledger
    sets as [list(...)] enumerates them. *)
Definition analysis_results (url : string) (s : AnalysisState)
    (rp rv : list string) : value :=
  VDict (<["reviewed_versions" := VList (VStr <$> rv)]>
        (<["reviewed_projects" := VList (VStr <$> rp)]>
        (<["suspect_versions" := VList (suspect_versions s)]>
        (<["suspect_projects" := VList (suspect_projects s)]>
        (<["unmapped_scans" := unmapped_scans s]>
        (<["other_issues" := VList (other_issues s)]>
        (<["hub_url" := VStr url]> ∅))))))).

Section Engine.
Variable py : Python.
Variable sage : BlackDuckSage.

(** [str(v)], as [str.format] inserts a value for a [{}] field. *)
Definition py_str (v : value) : string :=
  match v with
  | VStr s => s
  | VInt z => pretty z
  | VBool true => "True"
  | VBool false => "False"
  | VNull => "None"
  | VFloat q => repr_float py q
  | VList _ | VDict _ => repr_container py v
  end.

(** ["{}:{}".format(project_name, version_name)] *)
Definition version_key (project_name version_name : value) : string :=
  py_str project_name +:+ ":" +:+ py_str version_name.

Definition _write_results : M unit :=
  s ← gets id;
  write_file (analysis_results (get_urlbase (hub sage)) s
                (elements (reviewed_projects s)) (elements (reviewed_versions s))).

Definition _signal_handler {A} : M A :=
  _write_results;;
  raise (OSError "Interruped").

(** A call on the REST client.  The handler of SIGINT and SIGTERM, set
    by [__init__], runs when the signal arrives during the call, and
    what it raises surfaces where the call was made. *)
Definition call (r : reply) : M value :=
  match r with
  | Returns v => mret v
  | Fails e => raise e
  | Interrupted => _signal_handler
  end.

(** [x['items'] if x and 'items' in x else []] *)
Definition items_or_empty (x : value) : result value :=
  present ← (if truthy x then contains "items" x else Ok false);
  if present : bool then getitem x "items" else Ok (VList []).

Definition scan_info (project_name version_name : value) (suffix : string)
    (scan_objs : list value) : result (list value) :=
  result_filter_map
    (λ s, n ← getitem s "name"; py_endswith n suffix)
    (λ s, VDict <$> _copy_common_attributes s
                      {[ "project_name" := project_name;
                         "version_name" := version_name ]})
    scan_objs.

Definition analyze_version (project_name version : value) : M unit :=
  version_name ← lift (getitem version "versionName");
  try_except_else
    (call (get_version_codelocations (hub sage) version))
    (mret ())
    (λ scans,
      scan_objs ← lift (items_or_empty scans);
      num_scans ← lift (py_len scan_objs);
      version_info ← lift (_copy_common_attributes version
                             {[ "project_name" := project_name ]});
      (if decide (num_scans = 0) then
         let message :=
           zero_scans_message (py_str project_name) (py_str version_name) in
         modify (append_suspect_version
                   (VDict (<["message" := VStr message]> version_info)))
       else if decide (max_scans_per_version sage < Z.of_nat num_scans)%Z then
         let message :=
           too_many_scans_template (py_str project_name) (py_str version_name)
             (pretty num_scans) (py_str (VInt (max_versions_per_project sage))) in
         let message := _remove_white_space message in
         l ← lift (py_iter scan_objs);
         signature_scan_info ← lift (scan_info project_name version_name "scan" l);
         bom_scan_info ← lift (scan_info project_name version_name "bom" l);
         modify (append_suspect_version
                   (VDict (<["bom_scan_info" := VList bom_scan_info]>
                          (<["signature_scan_info" := VList signature_scan_info]>
                          (<["message" := VStr message]> version_info)))))
       else mret ());;
      modify (add_reviewed_version (version_key project_name version_name))).

(** [[v for v in items if v['phase'] == phase]] *)
Definition versions_in_phase (phase : string) (items : list value)
    : result (list value) :=
  result_filter_map (λ v, p ← getitem v "phase"; mret (is_str phase p)) Ok items.

(** The body of [for version in version_objs]. *)
Definition analyze_unreviewed_version (project version : value) : M unit :=
  name ← lift (getitem project "name");
  version_name ← lift (getitem version "versionName");
  let version_key := version_key name version_name in
  reviewed ← gets reviewed_versions;
  if decide (version_key ∈ reviewed) then mret ()
  else
    name ← lift (getitem project "name");
    analyze_version name version.

Definition analyze_project (project : value) : M unit :=
  project_name ← lift (getitem project "name");
  try_except_else
    (call (get_project_versions (hub sage) project))
    (mret ())
    (λ versions,
      version_objs ← lift (items_or_empty versions);
      num_versions ← lift (py_len version_objs);
      project_info ← lift (_copy_common_attributes project ∅);
      (if decide (num_versions = 0) then
         let message := zero_versions_message (py_str project_name) in
         modify (append_suspect_project
                   (VDict (<["message" := VStr message]> project_info)))
       else if decide (max_versions_per_project sage < Z.of_nat num_versions)%Z then
         let message :=
           too_many_versions_head (py_str project_name) (pretty num_versions)
             (py_str (VInt (max_versions_per_project sage))) in
         items ← lift (getitem versions "items");
         items ← lift (py_iter items);
         released_versions ← lift (versions_in_phase "RELEASED" items);
         archived_versions ← lift (versions_in_phase "ARCHIVED" items);
         let message :=
           if decide (length released_versions = 0)
           then message +:+ no_released_clause else message in
         let message :=
           if decide (length archived_versions = 0)
           then message +:+ no_archived_clause else message in
         let message := message +:+ review_versions_advice in
         let message := _remove_white_space message in
         modify (append_suspect_project
                   (VDict (<["message" := VStr message]> project_info)))
       else mret ());;
      l ← lift (py_iter version_objs);
      for_each l (analyze_unreviewed_version project);;
      k ← lift (hashable project_name);
      modify (add_reviewed_project k)).

Definition get_unmapped_scans : M (list value) :=
  unmapped_scans ← call (get_codelocations (hub sage));
  unmapped_scans ← lift (getitem unmapped_scans "items");
  l ← lift (py_iter unmapped_scans);
  lift (result_mapM (λ s, VDict <$> _copy_common_attributes s ∅) l).

(** The body of [for project in projects['items']]. *)
Definition analyze_unreviewed_project (project : value) : M unit :=
  name ← lift (getitem project "name");
  k ← lift (hashable name);
  reviewed ← gets reviewed_projects;
  if decide (k ∈ reviewed) then mret ()
  else analyze_project project.

(** [elapsed] is the difference of the two clock readings around the
    project listing, in seconds. *)
Definition analyze (elapsed : Q) : M unit :=
  projects ← call (get_projects (hub sage));
  items ← lift (getitem projects "items");
  num_projects ← lift (py_len items);
  (if Qle_bool elapsed (inject_Z (max_time_to_retrieve_projects sage)) then mret ()
   else
     let message :=
       slow_listing_template (py_str (VFloat elapsed))
         (py_str (VInt (max_time_to_retrieve_projects sage))) in
     let message := _remove_white_space message in
     modify (append_other_issue (VStr message)));;
  unmapped ← gets unmapped_scans;
  (if is_empty_dict_value unmapped then
     scans ← get_unmapped_scans;
     modify (set_unmapped_scans
               (VDict {[ "message" := VStr unmapped_scans_message;
                         "scans" := VList scans ]}))
   else mret ());;
  items ← lift (getitem projects "items");
  l ← lift (py_iter items);
  for_each l analyze_unreviewed_project;;
  _write_results.

End Engine.

(** ** Notions used in the statements *)

(** Whatever the outcome of [c], the analysis state moves along [R]. *)
Definition respects {A} (R : relation AnalysisState) (c : M A) : Prop :=
  ∀ m r m', c m = (r, m') → R (state m) (state m').

(** The ledger order: both sets of [s] are contained in those of [s']. *)
Definition ledger_le (s s' : AnalysisState) : Prop :=
  reviewed_projects s ⊆ reviewed_projects s' ∧
  reviewed_versions s ⊆ reviewed_versions s'.

(** [reviewed_projects] is only written by the last statement of
    [analyze_project]. *)
Definition same_reviewed_projects (s s' : AnalysisState) : Prop :=
  reviewed_projects s = reviewed_projects s'.

Definition same_unmapped_scans (s s' : AnalysisState) : Prop :=
  unmapped_scans s = unmapped_scans s'.

(** The common fields of a record, as a map. *)
Definition common_fields (d : gmap string value) (l : list string) (acc : gmap string value)
    : gmap string value :=
  foldl (λ a k, match d !! k with Some v => <[k := v]> a | None => a end) acc l.

(** A record with its self-referential locator [_meta.href]. *)
Definition locator (d : gmap string value) : option value :=
  match d !! "_meta" with
  | Some (VDict m) => m !! "href"
  | _ => None
  end.

(** What the extractor returns for a record [d] whose locator is [h]. *)
Definition summary (d : gmap string value) (h : value) (kwargs : gmap string value)
    : gmap string value :=
  kwargs ∪ <["url" := h]> (common_fields d COMMON_ATTRIBUTES ∅).

(** A scan record as the server sends it: a [name] that is a string and a
    locator. *)
Definition scan_record (s : value) : bool :=
  match s with
  | VDict d =>
      match d !! "name", locator d with
      | Some (VStr _), Some _ => true
      | _, _ => false
      end
  | _ => false
  end.

Definition name_endswith (suffix : string) (s : value) : bool :=
  match getitem s "name" with
  | Ok (VStr n) => endswith n suffix
  | _ => false
  end.

(** The extractor as the scan breakdown calls it. *)
Definition scan_summary (project_name version_name s : value) : result value :=
  VDict <$> _copy_common_attributes s
              {[ "project_name" := project_name; "version_name" := version_name ]}.

(** What [analyze_version] leaves in the state when nothing raises. *)
Definition version_outcome (py : Python) (sage : BlackDuckSage)
    (project_name version_name : value) (version_info : gmap string value)
    (num_scans : nat) (signature_scan_info bom_scan_info : list value)
    (s : AnalysisState) : AnalysisState :=
  add_reviewed_version (version_key py project_name version_name)
    (if decide (num_scans = 0) then
       append_suspect_version
         (VDict (<["message" :=
                     VStr (zero_scans_message (py_str py project_name)
                             (py_str py version_name))]> version_info)) s
     else if decide (max_scans_per_version sage < Z.of_nat num_scans)%Z then
       append_suspect_version
         (VDict (<["bom_scan_info" := VList bom_scan_info]>
                (<["signature_scan_info" := VList signature_scan_info]>
                (<["message" :=
                     VStr (_remove_white_space
                             (too_many_scans_template (py_str py project_name)
                                (py_str py version_name) (pretty num_scans)
                                (py_str py (VInt (max_versions_per_project sage)))))]>
                   version_info)))) s
     else s).

(** A version has been processed in state [s]: its key is in the ledger,
    or its scans could not be fetched. *)
Definition version_processed (py : Python) (sage : BlackDuckSage)
    (project version : value) (s : AnalysisState) : Prop :=
  ∃ name version_name,
    getitem project "name" = Ok name ∧
    getitem version "versionName" = Ok version_name ∧
    (version_key py name version_name ∈ reviewed_versions s ∨
     ∀ x, get_version_codelocations (hub sage) version ≠ Returns x).

(** A project has been processed in state [s]: its name is in the ledger,
    or its versions could not be fetched. *)
Definition project_processed (sage : BlackDuckSage) (project : value)
    (s : AnalysisState) : Prop :=
  ∃ k, getitem project "name" = Ok (VStr k) ∧
    (k ∈ reviewed_projects s ∨
     ∀ x, get_project_versions (hub sage) project ≠ Returns x).

(** The message [analyze] files when the project listing was slow. *)
Definition slow_listing_issue (py : Python) (sage : BlackDuckSage) (elapsed : Q)
    : value :=
  VStr (_remove_white_space
          (slow_listing_template (py_str py (VFloat elapsed))
             (py_str py (VInt (max_time_to_retrieve_projects sage))))).

(** The state after the timing check at the head of [analyze]. *)
Definition after_timing (py : Python) (sage : BlackDuckSage) (elapsed : Q)
    (s : AnalysisState) : AnalysisState :=
  if Qle_bool elapsed (inject_Z (max_time_to_retrieve_projects sage)) then s
  else append_other_issue (slow_listing_issue py sage elapsed) s.

Definition checkpoint (sage : BlackDuckSage) (s : AnalysisState) : value :=
  analysis_results (get_urlbase (hub sage)) s
    (elements (reviewed_projects s)) (elements (reviewed_versions s)).


(** ** A small server, for the examples *)

(** A stand-in for the interpreter's part of [str()]: exact on the floats
    with an integral value, the only ones the examples format; they format
    no list and no dict. *)
Definition example_python : Python :=
  {| repr_float := λ q, pretty (Qnum q / Zpos (Qden q))%Z +:+ ".0";
     repr_container := λ _, "<object>" |}.

Definition meta (href : string) : value := VDict {[ "href" := VStr href ]}.

Definition scan_fields (name : string) : gmap string value :=
  {[ "name" := VStr name; "scanSize" := VInt 1024;
     "_meta" := meta ("/codelocations/" +:+ name) ]}.

Definition version_fields (name : string) : gmap string value :=
  {[ "versionName" := VStr name; "phase" := VStr "DEVELOPMENT";
     "_meta" := meta ("/versions/" +:+ name) ]}.

Definition project_fields (name : string) : gmap string value :=
  {[ "name" := VStr name; "description" := VStr "a project";
     "_meta" := meta ("/projects/" +:+ name) ]}.

Definition scan (name : string) : value := VDict (scan_fields name).
Definition version (name : string) : value := VDict (version_fields name).
Definition project (name : string) : value := VDict (project_fields name).

Definition items_of (l : list value) : gmap string value := {[ "items" := VList l ]}.
Definition page (l : list value) : value := VDict (items_of l).

Definition version_is (name : string) (v : value) : bool :=
  match getitem v "versionName" with
  | Ok n => is_str name n
  | Raise _ => false
  end.

Definition fresh : machine := {| state := new_state; disk := None |}.

Definition three_scans : list value := [scan "foo-scan"; scan "foo-bom"; scan "other"].

(** One project [p] with one version [v1] that has three scans. *)
Definition three_scans_hub : HubInstance :=
  {| get_projects := Returns (page [project "p"]);
     get_project_versions := λ _, Returns (page [version "v1"]);
     get_version_codelocations := λ _, Returns (page three_scans);
     get_codelocations := Returns (page []);
     get_urlbase := "https://hub.example" |}.

Definition with_hub (h : HubInstance) (max_scans : Z) : BlackDuckSage :=
  {| hub := h;
     max_versions_per_project := 20;
     max_scans_per_version := max_scans;
     max_time_to_retrieve_projects := 60 |}.

(** One project [p] with versions [v1] and [v2]; neither has a scan, and
    the call for the scans of [v1] answers [r]. *)
Definition two_versions_hub (r : reply) : HubInstance :=
  {| get_projects := Returns (page [project "p"]);
     get_project_versions := λ _, Returns (page [version "v1"; version "v2"]);
     get_version_codelocations :=
       λ v, if version_is "v1" v then r else Returns (page []);
     get_codelocations := Returns (page []);
     get_urlbase := "https://hub.example" |}.

(** A server with no project; one whose answers all lack [items]; one
    whose listing of unmapped scans alone lacks it. *)
Definition empty_hub : HubInstance :=
  {| get_projects := Returns (page []);
     get_project_versions := λ _, Returns (page []);
     get_version_codelocations := λ _, Returns (page []);
     get_codelocations := Returns (page []);
     get_urlbase := "https://hub.example" |}.

Definition no_items_hub : HubInstance :=
  {| get_projects := Returns (VDict ∅);
     get_project_versions := λ _, Returns (VDict ∅);
     get_version_codelocations := λ _, Returns (VDict ∅);
     get_codelocations := Returns (VDict ∅);
     get_urlbase := "https://hub.example" |}.

Definition no_unmapped_items_hub : HubInstance :=
  {| get_projects := Returns (page []);
     get_project_versions := λ _, Returns (page []);
     get_version_codelocations := λ _, Returns (page []);
     get_codelocations := Returns (VDict ∅);
     get_urlbase := "https://hub.example" |}.

(** The runs the examples refer to. *)

(** A first run in which the scans of [v1] cannot be fetched, and the
    resumed run, by which time the server answers. *)
Definition failed_fetch_run : result () * machine :=
  analyze example_python
    (with_hub (two_versions_hub (Fails (HubError "timeout"))) 10) 0 fresh.

Definition resumed_run : result () * machine :=
  analyze example_python
    (with_hub (two_versions_hub (Returns (page []))) 10) 0 failed_fetch_run.2.

(** A run during which a signal arrives while the scans of [v1] are being
    fetched. *)
Definition interrupted_run : result () * machine :=
  analyze example_python (with_hub (two_versions_hub Interrupted) 10) 0 fresh.

(** A complete run on the empty server, and a second one whose project
    listing takes 61 seconds. *)
Definition quick_run : result () * machine :=
  analyze example_python (with_hub empty_hub 10) 0 fresh.

Definition slow_second_run : result () * machine :=
  analyze example_python (with_hub empty_hub 10) 61 quick_run.2.

(** The analysis of [v1] and of [p] on the server with three scans. *)
Definition v1_analyzed (max_scans : Z) : result () * machine :=
  analyze_version example_python (with_hub three_scans_hub max_scans)
    (VStr "p") (version "v1") fresh.

Definition p_analyzed : result () * machine :=
  analyze_project example_python (with_hub three_scans_hub 2) (project "p") fresh.

(** ** Notions used in the further properties *)

Fixpoint has_space (s : string) : bool :=
  match s with
  | EmptyString => false
  | String a s' => is_space a || has_space s'
  end.

(** A word: a non-empty string without whitespace. *)
Definition word (w : string) : Prop := w ≠ "" ∧ has_space w = false.

(** Every whitespace character of [s] is the plain space. *)
Fixpoint only_plain_spaces (s : string) : bool :=
  match s with
  | EmptyString => true
  | String a s' =>
      (negb (is_space a) || bool_decide (a = Ascii.ascii_of_nat 32))
      && only_plain_spaces s'
  end.

Definition same_suspect_projects (s s' : AnalysisState) : Prop :=
  suspect_projects s = suspect_projects s'.

Definition has_phase (v : value) : bool :=
  match getitem v "phase" with
  | Ok _ => true
  | Raise _ => false
  end.

Definition phase_is (phase : string) (v : value) : bool :=
  match getitem v "phase" with
  | Ok p => is_str phase p
  | Raise _ => false
  end.

Definition is_dict (v : value) : bool :=
  match v with
  | VDict _ => true
  | _ => false
  end.

(** The message of a project with too many versions, [l], as
    [analyze_project] builds it. *)
Definition too_many_versions_message (py : Python) (sage : BlackDuckSage)
    (project_name : value) (l : list value) : string :=
  let message :=
    too_many_versions_head (py_str py project_name) (pretty (length l))
      (py_str py (VInt (max_versions_per_project sage))) in
  let message :=
    if decide (length (List.filter (phase_is "RELEASED") l) = 0)
    then message +:+ no_released_clause else message in
  let message :=
    if decide (length (List.filter (phase_is "ARCHIVED") l) = 0)
    then message +:+ no_archived_clause else message in
  _remove_white_space (message +:+ review_versions_advice).

(** The state after the classification of a project with versions [l]. *)
Definition project_outcome (py : Python) (sage : BlackDuckSage)
    (project_name : value) (project_info : gmap string value) (l : list value)
    (s : AnalysisState) : AnalysisState :=
  if decide (length l = 0) then
    append_suspect_project
      (VDict (<["message" := VStr (zero_versions_message (py_str py project_name))]>
                project_info)) s
  else if decide (max_versions_per_project sage < Z.of_nat (length l))%Z then
    append_suspect_project
      (VDict (<["message" := VStr (too_many_versions_message py sage project_name l)]>
                project_info)) s
  else s.

(** What [analyze_project] does once the project is classified: the
    loop over the versions and the entry in the ledger. *)
Definition analyze_versions_and_record (py : Python) (sage : BlackDuckSage)
    (project project_name : value) (l : list value) : M unit :=
  for_each l (analyze_unreviewed_version py sage project);;
  k ← lift (hashable project_name);
  modify (add_reviewed_project k).

(** The three lists of findings of [s'] extend those of [s]. *)
Definition findings_extended (s s' : AnalysisState) : Prop :=
  other_issues s `prefix_of` other_issues s' ∧
  suspect_projects s `prefix_of` suspect_projects s' ∧
  suspect_versions s `prefix_of` suspect_versions s'.

(** The engine [sage] on a server that differs in its answer to the
    listing of unmapped scans. *)
Definition with_codelocations (sage : BlackDuckSage) (r : reply) : BlackDuckSage :=
  {| hub :=
       {| get_projects := get_projects (hub sage);
          get_project_versions := get_project_versions (hub sage);
          get_version_codelocations := get_version_codelocations (hub sage);
          get_codelocations := r;
          get_urlbase := get_urlbase (hub sage) |};
     max_versions_per_project := max_versions_per_project sage;
     max_scans_per_version := max_scans_per_version sage;
     max_time_to_retrieve_projects := max_time_to_retrieve_projects sage |}.

Definition has_locator (v : value) : bool :=
  match v with
  | VDict d => match locator d with Some _ => true | None => false end
  | _ => false
  end.

(** The summary of a record that has its locator. *)
Definition summary_of (v : value) : value :=
  match v with
  | VDict d =>
      match locator d with
      | Some h => VDict (summary d h ∅)
      | None => VNull
      end
  | _ => VNull
  end.

(** The fields the resume mode reads. *)
Definition STATE_FIELDS : list string :=
  ["other_issues"; "unmapped_scans"; "suspect_projects"; "suspect_versions";
   "reviewed_projects"; "reviewed_versions"].

(** No call on the server is interrupted by a signal. *)
Definition no_signal (sage : BlackDuckSage) : Prop :=
  get_projects (hub sage) ≠ Interrupted ∧
  (∀ project, get_project_versions (hub sage) project ≠ Interrupted) ∧
  (∀ version, get_version_codelocations (hub sage) version ≠ Interrupted) ∧
  get_codelocations (hub sage) ≠ Interrupted.

(** Whatever the outcome of [c], the file is as it was. *)
Definition keeps_file {A} (c : M A) : Prop :=
  ∀ m r m', c m = (r, m') → disk m' = disk m.

(** When [c] raises, the file is as it was. *)
Definition keeps_file_on_raise {A} (c : M A) : Prop :=
  ∀ m e m', c m = (Raise e, m') → disk m' = disk m.

(** The engine on the server with two versions, with the threshold on the
    versions of a project set to [max_versions]. *)
Definition with_max_versions (max_versions : Z) : BlackDuckSage :=
  {| hub := two_versions_hub (Returns (page []));
     max_versions_per_project := max_versions;
     max_scans_per_version := 10;
     max_time_to_retrieve_projects := 60 |}.

Definition two_versions : list value := [version "v1"; version "v2"].

(** A version record without [phase]. *)
Definition version_without_phase (name : string) : value :=
  VDict {[ "versionName" := VStr name; "_meta" := meta ("/versions/" +:+ name) ]}.

(** One project [p] whose second version has no [phase]. *)
Definition missing_phase_sage : BlackDuckSage :=
  {| hub :=
       {| get_projects := Returns (page [project "p"]);
          get_project_versions :=
            λ _, Returns (page [version "v1"; version_without_phase "v2"]);
          get_version_codelocations := λ _, Returns (page []);
          get_codelocations := Returns (page []);
          get_urlbase := "https://hub.example" |};
     max_versions_per_project := 1;
     max_scans_per_version := 10;
     max_time_to_retrieve_projects := 60 |}.

(** A server on which a signal arrives during the listing of the
    projects. *)
Definition interrupted_listing_hub : HubInstance :=
  {| get_projects := Interrupted;
     get_project_versions := λ _, Returns (page []);
     get_version_codelocations := λ _, Returns (page []);
     get_codelocations := Returns (page []);
     get_urlbase := "https://hub.example" |}.

(** A server with two unmapped scans. *)
Definition unmapped_hub : HubInstance :=
  {| get_projects := Returns (page []);
     get_project_versions := λ _, Returns (page []);
     get_version_codelocations := λ _, Returns (page []);
     get_codelocations := Returns (page [scan "old-scan"; scan "old-bom"]);
     get_urlbase := "https://hub.example" |}.

(** * Properties *)


(** ** Running a computation *)

Lemma bind_run {A B} (c : M A) (f : A → M B) (m : machine) :
  (c ≫= f) m =
  match c m with
  | (Ok a, m') => f a m'
  | (Raise e, m') => (Raise e, m')
  end.
Proof. reflexivity. Qed.

Lemma bind_lift_Ok {A B} (r : result A) (f : A → M B) (m : machine) (a : A) :
  r = Ok a → (lift r ≫= f) m = f a m.
Proof. intros ->. reflexivity. Qed.

Lemma bind_lift_Raise {A B} (r : result A) (f : A → M B) (m : machine) (e : exn) :
  r = Raise e → (lift r ≫= f) m = (Raise e, m).
Proof. intros ->. reflexivity. Qed.

(** ** Relations every step of a computation keeps *)

Section Respects.
Variable R : relation AnalysisState.
Context `{!PreOrder R}.

Lemma respects_ret {A} (a : A) : respects R (mret a).
Proof. intros m r m' [= <- <-]. reflexivity. Qed.

Lemma respects_lift {A} (r : result A) : respects R (lift r).
Proof. intros m r' m' [= <- <-]. reflexivity. Qed.

Lemma respects_raise {A} (e : exn) : respects R (@raise A e).
Proof. intros m r' m' [= <- <-]. reflexivity. Qed.

Lemma respects_gets {A} (f : AnalysisState → A) : respects R (gets f).
Proof. intros m r' m' [= <- <-]. reflexivity. Qed.

Lemma respects_write_file doc : respects R (write_file doc).
Proof. intros m r' m' [= <- <-]. reflexivity. Qed.

Lemma respects_modify f : (∀ s, R s (f s)) → respects R (modify f).
Proof. intros Hf m r' m' [= <- <-]. apply Hf. Qed.

Lemma respects_bind {A B} (c : M A) (f : A → M B) :
  respects R c → (∀ a, respects R (f a)) → respects R (c ≫= f).
Proof.
  intros Hc Hf m r m'. rewrite bind_run.
  destruct (c m) as [[a|e] m1] eqn:Ec; intros E.
  - transitivity (state m1); [by eapply Hc | by eapply Hf].
  - injection E as <- <-. by eapply Hc.
Qed.

Lemma respects_try {A B} (c : M A) (h : M B) (o : A → M B) :
  respects R c → respects R h → (∀ a, respects R (o a)) →
  respects R (try_except_else c h o).
Proof.
  intros Hc Hh Ho m r m'. unfold try_except_else.
  destruct (c m) as [[a|e] m1] eqn:Ec; intros E.
  - transitivity (state m1); [by eapply Hc | by eapply Ho].
  - transitivity (state m1); [by eapply Hc | by eapply Hh].
Qed.

Lemma respects_for_each {A} (l : list A) (body : A → M unit) :
  (∀ x, respects R (body x)) → respects R (for_each l body).
Proof.
  intros Hb. induction l as [|x l IH]; simpl.
  - apply respects_ret.
  - apply respects_bind; auto.
Qed.

Lemma respects_write_results sage : respects R (_write_results sage).
Proof.
  apply respects_bind; [apply respects_gets | intros; apply respects_write_file].
Qed.

Lemma respects_signal_handler {A} sage : respects R (@_signal_handler sage A).
Proof.
  apply respects_bind; [apply respects_write_results | intros; apply respects_raise].
Qed.

Lemma respects_call sage r : respects R (call sage r).
Proof.
  destruct r; [apply respects_ret | apply respects_raise | apply respects_signal_handler].
Qed.

(** The two classifiers, for an [R] that admits what they append. *)
Hypothesis R_suspect_project : ∀ x s, R s (append_suspect_project x s).
Hypothesis R_suspect_version : ∀ x s, R s (append_suspect_version x s).
Hypothesis R_reviewed_project : ∀ k s, R s (add_reviewed_project k s).
Hypothesis R_reviewed_version : ∀ k s, R s (add_reviewed_version k s).

Ltac respects_tac :=
  repeat first
    [ apply respects_lift | apply respects_ret | apply respects_gets
    | apply respects_raise | apply respects_write_file
    | apply respects_call | apply respects_modify; solve [auto]
    | apply respects_for_each; intros
    | apply respects_bind; [|intros]
    | apply respects_try; [| |intros]
    | case_decide ].

Lemma respects_analyze_version py sage project_name version :
  respects R (analyze_version py sage project_name version).
Proof. unfold analyze_version. respects_tac. Qed.

Lemma respects_analyze_unreviewed_version py sage project version :
  respects R (analyze_unreviewed_version py sage project version).
Proof.
  unfold analyze_unreviewed_version. respects_tac.
Qed.

Lemma respects_analyze_project py sage project :
  respects R (analyze_project py sage project).
Proof. unfold analyze_project. respects_tac. Qed.

Lemma respects_analyze_unreviewed_project py sage project :
  respects R (analyze_unreviewed_project py sage project).
Proof. unfold analyze_unreviewed_project. respects_tac. Qed.

Hypothesis R_other_issue : ∀ x s, R s (append_other_issue x s).
Hypothesis R_unmapped : ∀ x s, R s (set_unmapped_scans x s).

Lemma respects_get_unmapped_scans sage : respects R (get_unmapped_scans sage).
Proof. unfold get_unmapped_scans. respects_tac. Qed.

Lemma respects_analyze py sage elapsed : respects R (analyze py sage elapsed).
Proof.
  unfold analyze. respects_tac.
  all: try (destruct (Qle_bool _ _); respects_tac).
  all: try (destruct (is_empty_dict_value _); respects_tac).
Qed.
End Respects.

#[export] Instance ledger_le_preorder : PreOrder ledger_le.
Proof.
  split.
  - intros s. split; reflexivity.
  - intros s1 s2 s3 [? ?] [? ?]. split; etrans; eauto.
Qed.


(** ** The attribute extractor *)

Lemma copy_attribute_fold d l acc :
  foldl (copy_attribute (VDict d)) (Ok acc) l = Ok (common_fields d l acc).
Proof.
  revert acc. induction l as [|k l IH]; intros acc; [done|].
  simpl. unfold common_fields in *. simpl.
  destruct (d !! k) as [v|] eqn:Ek.
  - rewrite bool_decide_eq_true_2 by eauto. apply IH.
  - rewrite bool_decide_eq_false_2 by (by intros [? ?]). apply IH.
Qed.

Lemma lookup_common_fields d l acc k :
  common_fields d l acc !! k =
  if decide (k ∈ l)
  then match d !! k with Some v => Some v | None => acc !! k end
  else acc !! k.
Proof.
  revert acc. induction l as [|x l IH]; intros acc.
  - by rewrite decide_False by apply not_elem_of_nil.
  - unfold common_fields in *. simpl. rewrite IH.
    destruct (decide (k = x)) as [->|Hne].
    + rewrite (decide_True (P := x ∈ x :: l)) by apply list_elem_of_here.
      destruct (d !! x) as [v|] eqn:Ex.
      * rewrite lookup_insert_eq. by case_decide.
      * by case_decide.
    + destruct (decide (k ∈ l)) as [Hin|Hin].
      * rewrite (decide_True (P := k ∈ x :: l)) by by apply list_elem_of_further.
        destruct (d !! k); [done|].
        destruct (d !! x); [by rewrite lookup_insert_ne|done].
      * rewrite (decide_False (P := k ∈ x :: l))
          by (intros [?|?]%elem_of_cons; done).
        destruct (d !! x); [by rewrite lookup_insert_ne|done].
Qed.

Lemma map_fold_insert_union (kwargs m : gmap string value) :
  map_fold (λ k v acc, <[k := v]> acc) m kwargs = kwargs ∪ m.
Proof.
  induction kwargs as [|k v kwargs Hk Hfold IH] using map_first_key_ind.
  - by rewrite map_fold_empty, (left_id_L ∅ (∪)).
  - rewrite map_fold_insert_first_key by done.
    by rewrite IH, insert_union_l.
Qed.

Lemma result_bind_Ok {A B} (a : A) (f : A → result B) : Ok a ≫= f = f a.
Proof. reflexivity. Qed.

Lemma getitem_dict (d : gmap string value) k v :
  d !! k = Some v → getitem (VDict d) k = Ok v.
Proof. intros Hk. unfold getitem. by rewrite Hk. Qed.

Lemma getitem_missing (d : gmap string value) k :
  d !! k = None → getitem (VDict d) k = Raise (KeyError k).
Proof. intros Hk. unfold getitem. by rewrite Hk. Qed.

Lemma copy_common_attributes_Ok d h kwargs :
  locator d = Some h →
  _copy_common_attributes (VDict d) kwargs = Ok (summary d h kwargs).
Proof.
  unfold locator. intros Hloc.
  destruct (d !! "_meta") as [meta|] eqn:Em; [|discriminate].
  destruct meta as [| | | | | |m]; try discriminate.
  unfold _copy_common_attributes.
  rewrite copy_attribute_fold, result_bind_Ok.
  rewrite (getitem_dict _ _ _ Em), result_bind_Ok.
  rewrite (getitem_dict _ _ _ Hloc), result_bind_Ok.
  by rewrite map_fold_insert_union.
Qed.

Lemma lookup_summary d h kwargs k :
  summary d h kwargs !! k =
  match kwargs !! k with
  | Some v => Some v
  | None =>
      if decide (k = "url") then Some h
      else if decide (k ∈ COMMON_ATTRIBUTES) then d !! k
      else None
  end.
Proof.
  unfold summary.
  destruct (kwargs !! k) as [v|] eqn:Ek.
  - by apply lookup_union_Some_l.
  - rewrite lookup_union_r by done.
    case_decide as Hurl.
    + subst. by rewrite lookup_insert_eq.
    + rewrite lookup_insert_ne by done. rewrite lookup_common_fields.
      case_decide; [|done]. by destruct (d !! k).
Qed.

Lemma copy_common_attributes_no_meta d kwargs :
  d !! "_meta" = None →
  _copy_common_attributes (VDict d) kwargs = Raise (KeyError "_meta").
Proof.
  intros Hm. unfold _copy_common_attributes.
  rewrite copy_attribute_fold, result_bind_Ok.
  by rewrite (getitem_missing _ _ Hm).
Qed.

(** ** Paged results *)

Lemma is_empty_dict_false (d : gmap string value) k v :
  d !! k = Some v → is_empty_dict d = false.
Proof.
  intros Hk. unfold is_empty_dict.
  destruct (map_to_list d) as [|kv l] eqn:E; [|done].
  apply map_to_list_empty_iff in E. subst. by rewrite lookup_empty in Hk.
Qed.

Lemma items_or_empty_items d v :
  d !! "items" = Some v → items_or_empty (VDict d) = Ok v.
Proof.
  intros Hi. unfold items_or_empty. simpl.
  rewrite (is_empty_dict_false _ _ _ Hi). simpl.
  rewrite bool_decide_eq_true_2 by eauto. simpl. by rewrite Hi.
Qed.

Lemma items_or_empty_absent d :
  d !! "items" = None → items_or_empty (VDict d) = Ok (VList []).
Proof.
  intros Hi. unfold items_or_empty. simpl.
  destruct (is_empty_dict d); simpl; [done|].
  by rewrite bool_decide_eq_false_2 by (intros [? ?]; congruence).
Qed.

(** ** The checkpoint document *)

Lemma result_mapM_hashable (l : list string) :
  result_mapM hashable (VStr <$> l) = Ok l.
Proof.
  induction l as [|x l IH]; [done|].
  change (result_mapM hashable (VStr <$> x :: l))
    with (ys ← result_mapM hashable (VStr <$> l); mret (x :: ys)).
  by rewrite IH.
Qed.

Lemma py_set_strings (l : list string) :
  py_set (VList (VStr <$> l)) = Ok (list_to_set l).
Proof.
  unfold py_set, py_iter, mbind, result_bind. cbv beta iota.
  by rewrite result_mapM_hashable.
Qed.

Lemma init_resume_analysis_results url s rp rv :
  __init__ "resume" (Some (analysis_results url s rp rv)) =
  Ok {| other_issues := other_issues s;
        suspect_projects := suspect_projects s;
        suspect_versions := suspect_versions s;
        unmapped_scans := unmapped_scans s;
        reviewed_projects := list_to_set rp;
        reviewed_versions := list_to_set rv |}.
Proof.
  unfold __init__, analysis_results. simpl.
  repeat (rewrite ?lookup_insert_eq; rewrite ?lookup_insert_ne by done; simpl).
  by rewrite !py_set_strings.
Qed.

(** ** The version classifier on well-formed records *)

Lemma scan_record_inv s :
  scan_record s = true →
  ∃ d n h, s = VDict d ∧ d !! "name" = Some (VStr n) ∧ locator d = Some h.
Proof.
  destruct s as [| | | | | |d]; try done. simpl.
  destruct (d !! "name") as [[| | | |n| |]|] eqn:En; try done.
  destruct (locator d) as [h|] eqn:Eh; try done. eauto 10.
Qed.

Lemma scan_summary_Ok pn vn s :
  scan_record s = true → ∃ e, scan_summary pn vn s = Ok e.
Proof.
  intros (d & n & h & -> & _ & Hloc)%scan_record_inv.
  unfold scan_summary. rewrite (copy_common_attributes_Ok _ _ _ Hloc). eauto.
Qed.

Lemma result_mapM_Ok {A B} (f : A → result B) (l : list A) :
  (∀ x, x ∈ l → ∃ y, f x = Ok y) → ∃ ys, result_mapM f l = Ok ys.
Proof.
  induction l as [|x l IH]; intros Hf; [by eexists|].
  destruct (Hf x) as [y Hy]; [by left|].
  destruct IH as [ys Hys]; [intros; apply Hf; by right|].
  exists (y :: ys). simpl. by rewrite Hy, result_bind_Ok, Hys.
Qed.

Lemma result_filter_map_pure {A B} (p : A → result bool) (pb : A → bool)
    (f : A → result B) (l : list A) :
  (∀ x, x ∈ l → p x = Ok (pb x)) →
  result_filter_map p f l = result_mapM f (List.filter pb l).
Proof.
  induction l as [|x l IH]; intros Hp; [done|].
  simpl. rewrite (Hp x) by by left. rewrite result_bind_Ok.
  rewrite IH by (intros; apply Hp; by right).
  by destruct (pb x).
Qed.

Lemma forallb_elem_of {A} (p : A → bool) (l : list A) x :
  forallb p l = true → x ∈ l → p x = true.
Proof.
  intros Hall Hx. apply list_elem_of_In in Hx.
  by apply (proj1 (forallb_forall p l) Hall).
Qed.

Lemma scan_info_filter pn vn suffix l :
  forallb scan_record l = true →
  scan_info pn vn suffix l =
  result_mapM (scan_summary pn vn) (List.filter (name_endswith suffix) l).
Proof.
  intros Hl. unfold scan_info. apply result_filter_map_pure.
  intros s Hs. apply (forallb_elem_of _ _ _ Hl) in Hs.
  apply scan_record_inv in Hs as (d & n & h & -> & Hn & _).
  unfold name_endswith. by rewrite (getitem_dict _ _ _ Hn).
Qed.

Lemma scan_info_Ok pn vn suffix l :
  forallb scan_record l = true → ∃ info, scan_info pn vn suffix l = Ok info.
Proof.
  intros Hl. rewrite scan_info_filter by done.
  apply result_mapM_Ok. intros s Hs. apply scan_summary_Ok.
  apply (forallb_elem_of _ _ _ Hl).
  apply list_elem_of_In, filter_In in Hs as [Hs _]. by apply list_elem_of_In.
Qed.

Section VersionClassifier.
Variables (py : Python) (sage : BlackDuckSage).
Variables (project_name version_name hv : value).
Variables (dv ds : gmap string value) (l : list value).
Hypothesis version_has_name : dv !! "versionName" = Some version_name.
Hypothesis version_has_locator : locator dv = Some hv.
Hypothesis scans_fetched :
  get_version_codelocations (hub sage) (VDict dv) = Returns (VDict ds).
Hypothesis scans_items : ds !! "items" = Some (VList l).
Hypothesis scans_well_formed : forallb scan_record l = true.

Lemma analyze_version_returns m :
  ∃ sig bom,
    scan_info project_name version_name "scan" l = Ok sig ∧
    scan_info project_name version_name "bom" l = Ok bom ∧
    analyze_version py sage project_name (VDict dv) m =
    (Ok (),
     {| state :=
          version_outcome py sage project_name version_name
            (summary dv hv {[ "project_name" := project_name ]})
            (length l) sig bom (state m);
        disk := disk m |}).
Proof.
  destruct (scan_info_Ok project_name version_name "scan" l) as [sig Hsig]; [done|].
  destruct (scan_info_Ok project_name version_name "bom" l) as [bom Hbom]; [done|].
  exists sig, bom. split_and!; [done..|].
  unfold analyze_version.
  rewrite (bind_lift_Ok _ _ _ _ (getitem_dict _ _ _ version_has_name)).
  unfold try_except_else. rewrite scans_fetched.
  change (call sage (Returns (VDict ds)) m) with (Ok (VDict ds), m).
  cbv beta iota.
  rewrite (bind_lift_Ok _ _ _ _ (items_or_empty_items _ _ scans_items)).
  rewrite (bind_lift_Ok _ _ _ (length l)) by done.
  rewrite (bind_lift_Ok _ _ _ _ (copy_common_attributes_Ok _ _ _ version_has_locator)).
  unfold version_outcome.
  destruct (decide (length l = 0)); [done|].
  destruct (decide (max_scans_per_version sage < Z.of_nat (length l))%Z); [|done].
  rewrite bind_run.
  rewrite (bind_lift_Ok _ _ _ l) by done.
  rewrite (bind_lift_Ok _ _ _ _ Hsig).
  by rewrite (bind_lift_Ok _ _ _ _ Hbom).
Qed.
End VersionClassifier.

Lemma result_mapM_elem_of {A B} (f : A → result B) (l : list A) ys y :
  result_mapM f l = Ok ys → y ∈ ys → ∃ x, x ∈ l ∧ f x = Ok y.
Proof.
  revert ys. induction l as [|x l IH]; intros ys.
  - intros [= <-] Hy. by apply not_elem_of_nil in Hy.
  - simpl. destruct (f x) as [y'|e] eqn:Ex; [|done]. rewrite result_bind_Ok.
    destruct (result_mapM f l) as [ys'|e] eqn:El; [|done]. rewrite result_bind_Ok.
    intros [= <-] [->|Hy]%elem_of_cons.
    + exists x. split; [by left|done].
    + destruct (IH ys' eq_refl Hy) as (x' & Hx' & Hfx'). exists x'. split; [by right|done].
Qed.

(** The summary of a scan keeps the scan's name. *)
Lemma scan_summary_name pn vn d e :
  scan_summary pn vn (VDict d) = Ok e →
  ∃ r, e = VDict r ∧ r !! "name" = d !! "name".
Proof.
  unfold scan_summary. intros He.
  destruct (locator d) as [h|] eqn:Hloc.
  - rewrite (copy_common_attributes_Ok _ _ _ Hloc) in He. injection He as <-.
    eexists. split; [done|]. rewrite lookup_summary.
    rewrite lookup_insert_ne by done. rewrite lookup_singleton_ne by done.
    rewrite decide_False by done. rewrite decide_True; [done|].
    apply list_elem_of_here.
  - destruct (_copy_common_attributes (VDict d) _) as [r|] eqn:Er; [|done].
    exfalso. unfold _copy_common_attributes in Er.
    rewrite copy_attribute_fold, result_bind_Ok in Er.
    unfold locator in Hloc.
    destruct (d !! "_meta") as [meta|] eqn:Em;
      [|by rewrite (getitem_missing _ _ Em) in Er].
    rewrite (getitem_dict _ _ _ Em), result_bind_Ok in Er.
    destruct meta as [| | | | | |dm]; try done.
    by rewrite (getitem_missing _ _ Hloc) in Er.
Qed.

Lemma summary_not_in_bucket pn vn suffix l s e bucket :
  forallb scan_record l = true →
  s ∈ l →
  name_endswith suffix s = false →
  scan_summary pn vn s = Ok e →
  result_mapM (scan_summary pn vn) (List.filter (name_endswith suffix) l) = Ok bucket →
  e ∉ bucket.
Proof.
  intros Hwf Hs Hsuffix He Hbucket Hin.
  destruct (result_mapM_elem_of _ _ _ _ Hbucket Hin) as (s' & Hs' & He').
  apply list_elem_of_In, filter_In in Hs' as [Hs' Hsuffix'].
  apply list_elem_of_In in Hs'.
  apply (forallb_elem_of _ _ _ Hwf), scan_record_inv in Hs
    as (d & n & h & -> & Hn & _).
  apply (forallb_elem_of _ _ _ Hwf), scan_record_inv in Hs'
    as (d' & n' & h' & -> & Hn' & _).
  apply scan_summary_name in He as (r & -> & Hr).
  apply scan_summary_name in He' as (r' & [= <-] & Hr').
  unfold name_endswith in Hsuffix, Hsuffix'.
  rewrite (getitem_dict _ _ _ Hn) in Hsuffix.
  rewrite (getitem_dict _ _ _ Hn') in Hsuffix'.
  assert (n = n') as -> by congruence. congruence.
Qed.

(** ** Every outcome of the two classifiers *)

Lemma call_cases sage r m res m' :
  call sage r m = (res, m') →
  (∃ v, r = Returns v ∧ res = Ok v ∧ m' = m) ∨
  (∃ e, res = Raise e ∧ (∀ v, r ≠ Returns v) ∧ state m' = state m).
Proof.
  destruct r as [v|e|]; intros [= <- <-]; [left|right..]; eauto 10.
Qed.

(** [analyze_version] either raises before it has written anything,
    or skips the version because its scans could not be fetched, or
    classifies it and records it, in one step. *)
Lemma analyze_version_cases py sage project_name version m r m' :
  analyze_version py sage project_name version m = (r, m') →
  (∃ e, r = Raise e ∧ m' = m) ∨
  (r = Ok () ∧ state m' = state m ∧
   ∀ x, get_version_codelocations (hub sage) version ≠ Returns x) ∨
  (r = Ok () ∧ disk m' = disk m ∧
   ∃ version_name scans scan_objs version_info sig bom,
     getitem version "versionName" = Ok version_name ∧
     get_version_codelocations (hub sage) version = Returns scans ∧
     items_or_empty scans = Ok scan_objs ∧
     _copy_common_attributes version {[ "project_name" := project_name ]}
       = Ok version_info ∧
     ∃ n, py_len scan_objs = Ok n ∧
     state m' =
       version_outcome py sage project_name version_name version_info n sig bom
         (state m)).
Proof.
  unfold analyze_version. rewrite bind_run.
  destruct (getitem version "versionName") as [vn|e] eqn:Evn;
    cbv [lift]; [|intros [= <- <-]; left; eauto].
  unfold try_except_else.
  destruct (call sage _ m) as [res m1] eqn:Ecall.
  apply call_cases in Ecall as [(scans & Hr & -> & ->)|(e & -> & Hr & Hst)].
  2:{ intros [= <- <-]. right; left. done. }
  rewrite bind_run.
  destruct (items_or_empty scans) as [scan_objs|e] eqn:Eitems;
    cbv [lift]; [|intros [= <- <-]; left; eauto].
  rewrite bind_run.
  destruct (py_len scan_objs) as [n|e] eqn:En;
    cbv [lift]; [|intros [= <- <-]; left; eauto].
  rewrite bind_run.
  destruct (_copy_common_attributes version _) as [info|e] eqn:Einfo;
    cbv [lift]; [|intros [= <- <-]; left; eauto].
  rewrite bind_run.
  destruct (decide (n = 0)) as [Hn|Hn].
  { intros [= <- <-]. right; right. split_and!; [done..|].
    exists vn, scans, scan_objs, info, [], []. split_and!; [done..|].
    exists n. split; [done|]. unfold version_outcome. by rewrite decide_True. }
  destruct (decide (max_scans_per_version sage < Z.of_nat n)%Z) as [Hmax|Hmax].
  2:{ intros [= <- <-]. right; right. split_and!; [done..|].
      exists vn, scans, scan_objs, info, [], []. split_and!; [done..|].
      exists n. split; [done|]. unfold version_outcome.
      by rewrite decide_False, decide_False. }
  rewrite bind_run.
  destruct (py_iter scan_objs) as [l|e] eqn:El;
    cbv [lift]; [|intros [= <- <-]; left; eauto].
  rewrite bind_run.
  destruct (scan_info project_name vn "scan" l) as [sig|e] eqn:Esig;
    cbv [lift]; [|intros [= <- <-]; left; eauto].
  rewrite bind_run.
  destruct (scan_info project_name vn "bom" l) as [bom|e] eqn:Ebom;
    cbv [lift]; [|intros [= <- <-]; left; eauto].
  intros [= <- <-]. right; right. split_and!; [done..|].
  exists vn, scans, scan_objs, info, sig, bom. split_and!; [done..|].
  exists n. split; [done|]. unfold version_outcome.
  by rewrite decide_False, decide_True.
Qed.

Lemma run_lift_Ok {A B} (a : A) (f : A → M B) (m : machine) :
  (lift (Ok a) ≫= f) m = f a m.
Proof. reflexivity. Qed.

Lemma run_lift_Raise {A B} (e : exn) (f : A → M B) (m : machine) :
  (lift (Raise e) ≫= f) m = (Raise e, m).
Proof. reflexivity. Qed.

Lemma for_each_cons_Ok {A} (x : A) l (body : A → M unit) m m' :
  for_each (x :: l) body m = (Ok (), m') →
  ∃ m1, body x m = (Ok (), m1) ∧ for_each l body m1 = (Ok (), m').
Proof.
  simpl. rewrite bind_run.
  destruct (body x m) as [[[]|e] m1]; [eauto|done].
Qed.

Lemma reviewed_versions_version_outcome py sage pn vn info n sig bom s :
  reviewed_versions (version_outcome py sage pn vn info n sig bom s) =
  {[ version_key py pn vn ]} ∪ reviewed_versions s.
Proof. unfold version_outcome. by repeat case_decide. Qed.

Lemma reviewed_projects_version_outcome py sage pn vn info n sig bom s :
  reviewed_projects (version_outcome py sage pn vn info n sig bom s) =
  reviewed_projects s.
Proof. unfold version_outcome. by repeat case_decide. Qed.

Lemma ledger_le_analyze_unreviewed_version py sage project version :
  respects ledger_le (analyze_unreviewed_version py sage project version).
Proof.
  apply respects_analyze_unreviewed_version; [apply _|..];
    intros ? s; split; simpl; set_solver.
Qed.

Lemma version_processed_mono py sage project version s s' :
  ledger_le s s' →
  version_processed py sage project version s →
  version_processed py sage project version s'.
Proof.
  intros [_ Hle] (name & vn & Hn & Hv & Hor). exists name, vn.
  split_and!; [done..|].
  destruct Hor as [Hin|Hfail]; [left; by apply Hle | by right].
Qed.

Lemma analyze_unreviewed_version_processed py sage project version m m' :
  analyze_unreviewed_version py sage project version m = (Ok (), m') →
  version_processed py sage project version (state m').
Proof.
  unfold analyze_unreviewed_version. rewrite bind_run.
  destruct (getitem project "name") as [name|e] eqn:Ename; cbv [lift]; [|done].
  rewrite bind_run.
  destruct (getitem version "versionName") as [vn|e] eqn:Evn; cbv [lift]; [|done].
  rewrite bind_run. cbv [gets].
  destruct (decide (version_key py name vn ∈ reviewed_versions (state m))) as [Hin|Hin].
  { intros [= <-]. exists name, vn. eauto. }
  rewrite bind_run. cbv [lift].
  intros Hrun. exists name, vn. split_and!; [done..|].
  apply analyze_version_cases in Hrun
    as [(e & ? & _)|[(_ & _ & Hfail)|(_ & _ & Hdone)]]; [done|by right|].
  destruct Hdone as (vn' & scans & objs & info & sig & bom & Hvn' & _ & _ & _ & n & _ & ->).
  left. rewrite reviewed_versions_version_outcome.
  assert (vn' = vn) as -> by congruence. set_solver.
Qed.

Lemma for_each_versions_processed py sage project l m m' :
  for_each l (analyze_unreviewed_version py sage project) m = (Ok (), m') →
  ∀ version, version ∈ l → version_processed py sage project version (state m').
Proof.
  revert m. induction l as [|x l IH]; intros m Hrun version Hin.
  - by apply not_elem_of_nil in Hin.
  - apply for_each_cons_Ok in Hrun as (m1 & Hx & Hl).
    apply elem_of_cons in Hin as [->|Hin]; [|by eapply IH].
    eapply version_processed_mono.
    + eapply respects_for_each; [apply _| |exact Hl].
      intros. apply ledger_le_analyze_unreviewed_version.
    + by eapply analyze_unreviewed_version_processed.
Qed.

#[export] Instance same_reviewed_projects_preorder : PreOrder same_reviewed_projects.
Proof. split; [by intros ?|intros ???; unfold same_reviewed_projects; congruence]. Qed.

(** [analyze_project] either raises without having recorded the project, or
    skips it because its versions could not be fetched, or classifies it,
    goes through its versions and then records it. *)
Lemma analyze_project_cases py sage project m r m' :
  analyze_project py sage project m = (r, m') →
  (∃ e, r = Raise e ∧ reviewed_projects (state m') = reviewed_projects (state m)) ∨
  (r = Ok () ∧ state m' = state m ∧
   ∀ x, get_project_versions (hub sage) project ≠ Returns x) ∨
  (r = Ok () ∧
   ∃ k versions version_objs l m1 m2,
     getitem project "name" = Ok (VStr k) ∧
     get_project_versions (hub sage) project = Returns versions ∧
     items_or_empty versions = Ok version_objs ∧
     py_iter version_objs = Ok l ∧
     reviewed_projects (state m2) = reviewed_projects (state m) ∧
     for_each l (analyze_unreviewed_version py sage project) m1 = (Ok (), m2) ∧
     m' = {| state := add_reviewed_project k (state m2); disk := disk m2 |}).
Proof.
  unfold analyze_project.
  destruct (getitem project "name") as [name|e] eqn:Ename;
    [rewrite run_lift_Ok|rewrite run_lift_Raise; intros [= <- <-]; left; eauto].
  unfold try_except_else.
  destruct (call sage _ m) as [res m0] eqn:Ecall.
  apply call_cases in Ecall as [(versions & Hr & -> & ->)|(e & -> & Hr & Hst)].
  2:{ intros [= <- <-]. right; left. done. }
  destruct (items_or_empty versions) as [version_objs|e] eqn:Eitems;
    [rewrite run_lift_Ok|rewrite run_lift_Raise; intros [= <- <-]; left; eauto].
  destruct (py_len version_objs) as [n|e] eqn:En;
    [rewrite run_lift_Ok|rewrite run_lift_Raise; intros [= <- <-]; left; eauto].
  destruct (_copy_common_attributes project ∅) as [info|e] eqn:Einfo;
    [rewrite run_lift_Ok|rewrite run_lift_Raise; intros [= <- <-]; left; eauto].
  rewrite bind_run.
  match goal with
  | |- context [match ?c m with _ => _ end] =>
      assert (respects same_reviewed_projects c) as Hc;
      [|destruct (c m) as [res m1] eqn:Eclassify;
        pose proof (Hc _ _ _ Eclassify) as Hm1; clear Hc]
  end.
  { repeat first
      [ apply (respects_lift same_reviewed_projects)
      | apply (respects_ret same_reviewed_projects)
      | apply respects_modify; solve [intros; red; reflexivity]
      | apply (respects_bind same_reviewed_projects); [|intros]
      | case_decide ]. }
  destruct res as [[]|e]; [|intros [= <- <-]; left; eauto].
  destruct (py_iter version_objs) as [l|e] eqn:El;
    [rewrite run_lift_Ok|rewrite run_lift_Raise; intros [= <- <-]; left; eauto].
  rewrite bind_run.
  destruct (for_each l _ m1) as [res m2] eqn:Eloop.
  assert (same_reviewed_projects (state m1) (state m2)) as Hm2.
  { eapply respects_for_each; [apply _| |exact Eloop].
    intros. apply respects_analyze_unreviewed_version;
      [apply _|intros; red; reflexivity..]. }
  destruct res as [[]|e]; [|intros [= <- <-]; left; eexists; split; [done|congruence]].
  destruct (hashable name) as [k|e] eqn:Ek;
    [rewrite run_lift_Ok
    |rewrite run_lift_Raise; intros [= <- <-]; left; eexists; split; [done|congruence]].
  destruct name; try discriminate. injection Ek as ->.
  intros [= <- <-]. right; right. split; [done|].
  exists k, versions, version_objs, l, m1, m2. split_and!; [done..| |done|done].
  unfold same_reviewed_projects in *. congruence.
Qed.

Lemma analyze_unreviewed_project_processed py sage project m m' :
  analyze_unreviewed_project py sage project m = (Ok (), m') →
  ∃ k, getitem project "name" = Ok (VStr k) ∧
    (k ∈ reviewed_projects (state m') ∨
     ∀ x, get_project_versions (hub sage) project ≠ Returns x).
Proof.
  unfold analyze_unreviewed_project. rewrite bind_run.
  destruct (getitem project "name") as [name|e] eqn:Ename; cbv [lift]; [|done].
  rewrite bind_run.
  destruct name as [| | | |k| |]; cbv [lift hashable]; try done.
  rewrite bind_run. cbv [gets].
  destruct (decide (k ∈ reviewed_projects (state m))) as [Hin|Hin].
  { intros [= <-]. eauto. }
  intros Hrun. exists k. split; [done|].
  apply analyze_project_cases in Hrun
    as [(e & ? & _)|[(_ & _ & Hfail)|(_ & Hdone)]]; [done|by right|].
  destruct Hdone as (k' & ? & ? & ? & ? & ? & Hk' & _ & _ & _ & _ & _ & ->).
  left. simpl. assert (k' = k) as -> by congruence. set_solver.
Qed.

(** ** A whole run *)

#[export] Instance same_unmapped_scans_preorder : PreOrder same_unmapped_scans.
Proof. split; [by intros ?|intros ???; unfold same_unmapped_scans; congruence]. Qed.

Lemma ledger_le_analyze_unreviewed_project py sage project :
  respects ledger_le (analyze_unreviewed_project py sage project).
Proof.
  apply respects_analyze_unreviewed_project; [apply _|..];
    intros ? s; split; simpl; set_solver.
Qed.

Lemma for_each_projects_processed py sage l m m' :
  for_each l (analyze_unreviewed_project py sage) m = (Ok (), m') →
  ∀ project, project ∈ l → project_processed sage project (state m').
Proof.
  revert m. induction l as [|x l IH]; intros m Hrun project Hin.
  - by apply not_elem_of_nil in Hin.
  - apply for_each_cons_Ok in Hrun as (m1 & Hx & Hl).
    apply elem_of_cons in Hin as [->|Hin]; [|by eapply IH].
    apply analyze_unreviewed_project_processed in Hx as (k & Hk & Hor).
    exists k. split; [done|]. destruct Hor as [Hin|Hfail]; [left|by right].
    assert (ledger_le (state m1) (state m')) as [Hle _]; [|by apply Hle].
    eapply respects_for_each; [apply _| |exact Hl].
    intros. apply ledger_le_analyze_unreviewed_project.
Qed.

(** When the versions of a project cannot be fetched, [analyze_project]
    returns and leaves the analysis state as it was. *)
Lemma analyze_project_not_fetched py sage project name m :
  getitem project "name" = Ok name →
  (∀ x, get_project_versions (hub sage) project ≠ Returns x) →
  ∃ m', analyze_project py sage project m = (Ok (), m') ∧ state m' = state m.
Proof.
  intros Hname Hfail. unfold analyze_project.
  rewrite Hname, run_lift_Ok. unfold try_except_else.
  destruct (get_project_versions (hub sage) project) as [x|e|] eqn:Er.
  - by destruct (Hfail x).
  - by eexists.
  - by eexists.
Qed.

Lemma analyze_unreviewed_project_skip py sage project m :
  project_processed sage project (state m) →
  ∃ m', analyze_unreviewed_project py sage project m = (Ok (), m') ∧
        state m' = state m.
Proof.
  intros (k & Hk & Hor). unfold analyze_unreviewed_project.
  rewrite Hk, run_lift_Ok. cbv [hashable]. rewrite run_lift_Ok.
  rewrite bind_run. cbv [gets].
  destruct (decide (k ∈ reviewed_projects (state m))) as [Hin|Hin]; [by eexists|].
  destruct Hor as [?|Hfail]; [done|].
  by eapply analyze_project_not_fetched.
Qed.

Lemma for_each_projects_skip py sage l m :
  (∀ project, project ∈ l → project_processed sage project (state m)) →
  ∃ m', for_each l (analyze_unreviewed_project py sage) m = (Ok (), m') ∧
        state m' = state m.
Proof.
  revert m. induction l as [|x l IH]; intros m Hl; [by eexists|].
  destruct (analyze_unreviewed_project_skip py sage x m) as (m1 & Hx & Hm1).
  { apply Hl. by left. }
  destruct (IH m1) as (m' & Hrun & Hm').
  { intros project Hin. rewrite Hm1. apply Hl. by right. }
  exists m'. split; [|congruence].
  simpl. by rewrite bind_run, Hx.
Qed.

Lemma write_results_run sage m :
  _write_results sage m =
  (Ok (), {| state := state m; disk := Some (checkpoint sage (state m)) |}).
Proof. reflexivity. Qed.

Lemma analyze_Ok_inv py sage elapsed m m' :
  analyze py sage elapsed m = (Ok (), m') →
  ∃ projects items n l ma mb,
    get_projects (hub sage) = Returns projects ∧
    getitem projects "items" = Ok items ∧
    py_len items = Ok n ∧
    py_iter items = Ok l ∧
    is_empty_dict_value (unmapped_scans (state ma)) = false ∧
    for_each l (analyze_unreviewed_project py sage) ma = (Ok (), mb) ∧
    m' = {| state := state mb; disk := Some (checkpoint sage (state mb)) |}.
Proof.
  unfold analyze. rewrite bind_run.
  destruct (call sage _ m) as [res m0] eqn:Ecall.
  apply call_cases in Ecall as [(projects & Hr & -> & ->)|(e & -> & _)]; [|done].
  destruct (getitem projects "items") as [items|e] eqn:Eitems;
    [rewrite run_lift_Ok|by rewrite run_lift_Raise].
  destruct (py_len items) as [n|e] eqn:En;
    [rewrite run_lift_Ok|by rewrite run_lift_Raise].
  rewrite bind_run.
  match goal with
  | |- context [match ?c m with _ => _ end] => destruct (c m) as [[[]|e] m1]; [|done]
  end.
  rewrite bind_run. cbv [gets]. rewrite bind_run.
  match goal with
  | |- context [match ?c m1 with _ => _ end] =>
      destruct (c m1) as [res ma] eqn:Eunmapped
  end.
  assert (res = Ok () → is_empty_dict_value (unmapped_scans (state ma)) = false) as Hma.
  { destruct (is_empty_dict_value (unmapped_scans (state m1))) eqn:Hempty.
    - revert Eunmapped. rewrite bind_run.
      destruct (get_unmapped_scans sage m1) as [[scans|e] m2]; [|by intros [= <- <-]].
      intros [= <- <-] _. simpl.
      eapply is_empty_dict_false. apply lookup_insert_eq.
    - by injection Eunmapped as <- <-. }
  destruct res as [[]|e]; [|done]. specialize (Hma eq_refl).
  rewrite run_lift_Ok.
  destruct (py_iter items) as [l|e] eqn:El;
    [rewrite run_lift_Ok|by rewrite run_lift_Raise].
  rewrite bind_run.
  destruct (for_each l _ ma) as [[[]|e] mb] eqn:Eloop; [|done].
  rewrite write_results_run. intros [= <-].
  by exists projects, items, n, l, ma, mb.
Qed.

(** A second run over a processed inventory changes nothing but, when
    the listing was slow, [other_issues]. *)
Lemma analyze_again py sage elapsed projects items n l m :
  get_projects (hub sage) = Returns projects →
  getitem projects "items" = Ok items →
  py_len items = Ok n →
  py_iter items = Ok l →
  is_empty_dict_value (unmapped_scans (state m)) = false →
  (∀ project, project ∈ l → project_processed sage project (state m)) →
  ∃ m', analyze py sage elapsed m = (Ok (), m') ∧
        state m' = after_timing py sage elapsed (state m).
Proof.
  intros Hr Hitems Hn Hl Hunmapped Hprocessed.
  unfold analyze. rewrite Hr.
  change (call sage (Returns projects)) with (@mret M _ _ projects).
  rewrite bind_run. cbv [mret M_ret].
  rewrite Hitems, run_lift_Ok, Hn, run_lift_Ok, bind_run.
  pose (m1 := {| state := after_timing py sage elapsed (state m); disk := disk m |}).
  match goal with
  | |- context [match ?c m with _ => _ end] =>
      assert (c m = (Ok (), m1)) as ->
  end.
  { unfold m1, after_timing. destruct (Qle_bool _ _); [by destruct m|done]. }
  assert (unmapped_scans (state m1) = unmapped_scans (state m)) as Hum.
  { unfold m1, after_timing. simpl. by destruct (Qle_bool _ _). }
  rewrite bind_run. cbv [gets]. rewrite Hum, Hunmapped, bind_run.
  cbv [mret M_ret]. rewrite run_lift_Ok, Hl, run_lift_Ok, bind_run.
  destruct (for_each_projects_skip py sage l m1) as (m2 & -> & Hm2).
  { intros project Hin. destruct (Hprocessed project Hin) as (k & Hk & Hor).
    exists k. split; [done|]. destruct Hor as [Hk'|?]; [left|by right].
    unfold m1, after_timing. simpl. by destruct (Qle_bool _ _). }
  rewrite write_results_run. eexists. split; [done|]. simpl. by rewrite Hm2.
Qed.

Lemma init_resume_permuted sage s rp rv :
  rp ≡ₚ elements (reviewed_projects s) →
  rv ≡ₚ elements (reviewed_versions s) →
  __init__ "resume" (Some (analysis_results (get_urlbase (hub sage)) s rp rv)) = Ok s.
Proof.
  intros Hrp Hrv. rewrite init_resume_analysis_results.
  assert (list_to_set rp = reviewed_projects s) as ->.
  { apply set_eq. intros x. by rewrite elem_of_list_to_set, Hrp, elem_of_elements. }
  assert (list_to_set rv = reviewed_versions s) as ->.
  { apply set_eq. intros x. by rewrite elem_of_list_to_set, Hrv, elem_of_elements. }
  by destruct s.
Qed.

Lemma init_resume_checkpoint sage s :
  __init__ "resume" (Some (checkpoint sage s)) = Ok s.
Proof. unfold checkpoint. apply init_resume_permuted; reflexivity. Qed.

(** * The claims *)

(** ** The attribute extractor (C5) *)

(** C5, as the code has it: for every entity record that carries its
    self-referential locator ([_meta] with an [href]) and every set of
    override pairs, the extractor returns a mapping made of exactly the
    recognized common fields present in the record, a [url] field holding
    the locator, and all the override pairs, an override winning over the
    field of the same key; common fields absent from the record are left
    out. *)
Theorem extractor_on_located_record (d : gmap string value) (h : value)
    (kwargs : gmap string value) :
  locator d = Some h →
  ∃ r, _copy_common_attributes (VDict d) kwargs = Ok r ∧
    ∀ k, r !! k =
      match kwargs !! k with
      | Some v => Some v
      | None =>
          if decide (k = "url") then Some h
          else if decide (k ∈ COMMON_ATTRIBUTES) then d !! k
          else None
      end.
Proof.
  intros Hloc. exists (summary d h kwargs). split.
  - by apply copy_common_attributes_Ok.
  - apply lookup_summary.
Qed.

Lemma extractor_on_located_record_witness :
  locator (project_fields "p") = Some (VStr "/projects/p") ∧
  ∃ r, _copy_common_attributes (project "p") {[ "project_name" := VStr "p" ]} = Ok r ∧
    ∀ k, r !! k =
      match ({[ "project_name" := VStr "p" ]} : gmap string value) !! k with
      | Some v => Some v
      | None =>
          if decide (k = "url") then Some (VStr "/projects/p")
          else if decide (k ∈ COMMON_ATTRIBUTES) then project_fields "p" !! k
          else None
      end.
Proof.
  split; [reflexivity|].
  apply (extractor_on_located_record (project_fields "p") (VStr "/projects/p")).
  reflexivity.
Defined.

(** C5 as stated fails: a record without [_meta] makes the extractor
    raise [KeyError], whatever else it holds. *)
Lemma extractor_raises_without_locator :
  _copy_common_attributes (VDict {[ "name" := VStr "p" ]}) ∅
    = Raise (KeyError "_meta") ∧
  ¬ ∃ r, _copy_common_attributes (VDict {[ "name" := VStr "p" ]}) ∅ = Ok r.
Proof.
  assert (_copy_common_attributes (VDict {[ "name" := VStr "p" ]}) ∅
            = Raise (KeyError "_meta")) as E by (by apply copy_common_attributes_no_meta).
  split; [done|]. intros [r Hr]. congruence.
Qed.

(** ** The checkpoint (C8) *)

(** C8: what [_write_results] saves, the resume mode of [__init__] reads
    back as the same analysis state; the order in which the two ledger
    sets were written does not matter. *)
Theorem checkpoint_round_trip (sage : BlackDuckSage) (m : machine) :
  _write_results sage m =
    (Ok (), {| state := state m; disk := Some (checkpoint sage (state m)) |}) ∧
  __init__ "resume" (Some (checkpoint sage (state m))) = Ok (state m) ∧
  ∀ rp rv,
    rp ≡ₚ elements (reviewed_projects (state m)) →
    rv ≡ₚ elements (reviewed_versions (state m)) →
    __init__ "resume"
      (Some (analysis_results (get_urlbase (hub sage)) (state m) rp rv))
    = Ok (state m).
Proof.
  split_and!; [reflexivity|apply init_resume_checkpoint|].
  intros rp rv Hrp Hrv. by apply init_resume_permuted.
Qed.

Lemma checkpoint_round_trip_witness :
  reverse (elements (reviewed_projects (state resumed_run.2)))
    ≡ₚ elements (reviewed_projects (state resumed_run.2)) ∧
  reverse (elements (reviewed_versions (state resumed_run.2)))
    ≡ₚ elements (reviewed_versions (state resumed_run.2)) ∧
  __init__ "resume"
    (Some (analysis_results "https://hub.example" (state resumed_run.2)
             (reverse (elements (reviewed_projects (state resumed_run.2))))
             (reverse (elements (reviewed_versions (state resumed_run.2))))))
  = Ok (state resumed_run.2).
Proof.
  split_and!; [apply reverse_Permutation..|].
  apply (checkpoint_round_trip
           (with_hub (two_versions_hub (Returns (page []))) 10) resumed_run.2);
    apply reverse_Permutation.
Defined.

(** ** The version classifier (C6, C7, C10) *)



(** C7: when a version with at least one scan has more than
    [max_scans_per_version] scans, the finding it yields holds in
    [signature_scan_info] the summaries of exactly the scans whose name
    ends with "scan", in [bom_scan_info] those of exactly the scans whose
    name ends with "bom", each in the order of the listing, and the summary
    of a scan whose name ends with neither is in neither of them. *)
Theorem scan_partition_by_suffix (py : Python) (sage : BlackDuckSage)
    (project_name version_name hv : value) (dv ds : gmap string value)
    (l : list value) (m : machine) :
  dv !! "versionName" = Some version_name →
  locator dv = Some hv →
  get_version_codelocations (hub sage) (VDict dv) = Returns (VDict ds) →
  ds !! "items" = Some (VList l) →
  forallb scan_record l = true →
  (1 ≤ length l)%nat →
  (max_scans_per_version sage < Z.of_nat (length l))%Z →
  ∃ m' finding sigs boms,
    analyze_version py sage project_name (VDict dv) m = (Ok (), m') ∧
    suspect_versions (state m') = (suspect_versions (state m) ++ [VDict finding])%list ∧
    finding !! "signature_scan_info" = Some (VList sigs) ∧
    finding !! "bom_scan_info" = Some (VList boms) ∧
    result_mapM (scan_summary project_name version_name)
      (List.filter (name_endswith "scan") l) = Ok sigs ∧
    result_mapM (scan_summary project_name version_name)
      (List.filter (name_endswith "bom") l) = Ok boms ∧
    ∀ s e, s ∈ l →
      name_endswith "scan" s = false → name_endswith "bom" s = false →
      scan_summary project_name version_name s = Ok e →
      (e ∉ sigs) ∧ (e ∉ boms).
Proof.
  intros Hname Hloc Hfetch Hitems Hwf Hone Hmax.
  destruct (analyze_version_returns py sage project_name version_name hv dv ds l
              Hname Hloc Hfetch Hitems Hwf m) as (sigs & boms & Hsig & Hbom & ->).
  rewrite scan_info_filter in Hsig, Hbom by done.
  unfold version_outcome. rewrite decide_False by lia. rewrite decide_True by done.
  eexists _, _, sigs, boms. split_and!; [done|done| | |done|done|].
  - rewrite lookup_insert_ne by done. apply lookup_insert_eq.
  - apply lookup_insert_eq.
  - intros s e Hs Hnot_scan Hnot_bom He.
    split; intros Hin.
    + eapply summary_not_in_bucket; [exact Hwf|exact Hs|exact Hnot_scan|exact He|exact Hsig|exact Hin].
    + eapply summary_not_in_bucket; [exact Hwf|exact Hs|exact Hnot_bom|exact He|exact Hbom|exact Hin].
Qed.

Lemma scan_partition_by_suffix_witness :
  ∃ finding sigs boms e,
    suspect_versions (state (v1_analyzed 2).2) = [VDict finding] ∧
    finding !! "signature_scan_info" = Some (VList sigs) ∧
    finding !! "bom_scan_info" = Some (VList boms) ∧
    result_mapM (scan_summary (VStr "p") (VStr "v1")) [scan "foo-scan"] = Ok sigs ∧
    result_mapM (scan_summary (VStr "p") (VStr "v1")) [scan "foo-bom"] = Ok boms ∧
    scan_summary (VStr "p") (VStr "v1") (scan "other") = Ok e ∧
    (e ∉ sigs) ∧ (e ∉ boms).
Proof.
  destruct (scan_partition_by_suffix example_python
              (with_hub three_scans_hub 2) (VStr "p") (VStr "v1") (VStr "/versions/v1")
              (version_fields "v1") (items_of three_scans) three_scans fresh)
    as (m' & finding & sigs & boms & E & Hfinding & Hsigs & Hboms & Hscan & Hbom & Hother);
    [reflexivity..|simpl; lia|simpl; lia|].
  exists finding, sigs, boms,
    (VDict (summary (scan_fields "other") (VStr "/codelocations/other")
              {[ "project_name" := VStr "p"; "version_name" := VStr "v1" ]})).
  assert (scan_summary (VStr "p") (VStr "v1") (scan "other") =
          Ok (VDict (summary (scan_fields "other") (VStr "/codelocations/other")
                       {[ "project_name" := VStr "p"; "version_name" := VStr "v1" ]})))
    as He.
  { unfold scan_summary, scan.
    by rewrite (copy_common_attributes_Ok _ (VStr "/codelocations/other")). }
  unfold v1_analyzed, version. rewrite E.
  split_and!; [exact Hfinding|exact Hsigs|exact Hboms|exact Hscan|exact Hbom|exact He|..];
    apply (Hother (scan "other")); try reflexivity; try exact He;
    unfold three_scans; by do 2 apply list_elem_of_further; apply list_elem_of_here.
Defined.



(** ** The ledger (C3) *)



(** ** Resuming (C2, C1) *)




(** C1, on the server of [failed_fetch_run]: the scans of [v1] cannot be
    fetched, and the run completes with [p] in [reviewed_projects] although
    [p:v1] is not in [reviewed_versions]; the resumed run, for which the
    server answers, skips [p], so [v1] is not analysed again: it would be
    reported for having no scan, as [v2] is. *)
Theorem failed_scan_fetch_is_not_retried :
  failed_fetch_run.1 = Ok () ∧
  ("p" ∈ reviewed_projects (state failed_fetch_run.2)) ∧
  ("p:v1" ∉ reviewed_versions (state failed_fetch_run.2)) ∧
  __init__ "resume" (disk failed_fetch_run.2) = Ok (state failed_fetch_run.2) ∧
  resumed_run.1 = Ok () ∧
  state resumed_run.2 = state failed_fetch_run.2 ∧
  ("p:v1" ∉ reviewed_versions (state resumed_run.2)) ∧
  length (suspect_versions (state resumed_run.2)) = 1.
Proof.
  split_and!;
    first [ refine (bool_decide_unpack _ _); vm_compute; exact I
          | vm_compute; reflexivity ].
Qed.

(** ** Paged results without [items] (C4) *)

(** C4: a project listing without [items] makes [analyze] raise
    [KeyError], and so does a listing of unmapped scans without it; the
    listings of versions and of scans without [items] are read as empty,
    [p] being reported for having no version. *)
Theorem listing_without_items_raises :
  analyze example_python (with_hub no_items_hub 10) 0 fresh
    = (Raise (KeyError "items"), fresh) ∧
  analyze example_python (with_hub no_unmapped_items_hub 10) 0 fresh
    = (Raise (KeyError "items"), fresh) ∧
  (analyze_project example_python (with_hub no_items_hub 10) (project "p") fresh).1
    = Ok () ∧
  length (suspect_projects
            (state (analyze_project example_python (with_hub no_items_hub 10)
                      (project "p") fresh).2)) = 1 ∧
  (analyze_version example_python (with_hub no_items_hub 10) (VStr "p")
     (version "v1") fresh).1 = Ok () ∧
  length (suspect_versions
            (state (analyze_version example_python (with_hub no_items_hub 10)
                      (VStr "p") (version "v1") fresh).2)) = 1.
Proof. split_and!; vm_compute; reflexivity. Qed.

(** ** Interruption (C9) *)

(** C9: the handler saves the current state and raises; it calls the
    server for nothing but its base URL.  When the signal arrives while
    the scans of [v1] are being fetched, the bare [except] of
    [analyze_version] takes what the handler raised: the run goes on,
    fetches the scans of [v2], reports it, records [p] and returns. *)
Theorem interrupt_during_fetch_is_swallowed :
  (∀ sage m,
     @_signal_handler sage () m =
     (Raise (OSError "Interruped"),
      {| state := state m; disk := Some (checkpoint sage (state m)) |})) ∧
  interrupted_run.1 = Ok () ∧
  ("p:v1" ∉ reviewed_versions (state interrupted_run.2)) ∧
  ("p:v2" ∈ reviewed_versions (state interrupted_run.2)) ∧
  ("p" ∈ reviewed_projects (state interrupted_run.2)) ∧
  length (suspect_versions (state interrupted_run.2)) = 1 ∧
  disk interrupted_run.2
    = Some (checkpoint (with_hub (two_versions_hub Interrupted) 10)
              (state interrupted_run.2)).
Proof.
  split_and!;
    first [ refine (bool_decide_unpack _ _); vm_compute; exact I
          | vm_compute; reflexivity
          | reflexivity ].
Qed.

(** * Further properties *)

(** ** Whitespace normalization *)

Lemma string_app_cons (a : Ascii.ascii) (s t : string) :
  String a s +:+ t = String a (s +:+ t).
Proof. reflexivity. Qed.

Lemma string_app_nil_r (s : string) : s +:+ "" = s.
Proof.
  induction s as [|a s IH]; [done|]. by rewrite string_app_cons, IH.
Qed.

Lemma string_app_assoc (s1 s2 s3 : string) :
  (s1 +:+ s2) +:+ s3 = s1 +:+ (s2 +:+ s3).
Proof.
  induction s1 as [|a s1 IH]; [done|]. by rewrite !string_app_cons, IH.
Qed.

Lemma string_app_eq_nil (s1 s2 : string) : s1 +:+ s2 = "" → s1 = "" ∧ s2 = "".
Proof. by destruct s1. Qed.

Lemma has_space_app (s1 s2 : string) :
  has_space (s1 +:+ s2) = has_space s1 || has_space s2.
Proof.
  induction s1 as [|a s1 IH]; [done|].
  rewrite string_app_cons. simpl. by rewrite IH, orb_assoc.
Qed.

Lemma split_from_words (s cur : string) :
  has_space cur = false → Forall word (split_from cur s).
Proof.
  revert cur. induction s as [|a s IH]; intros cur Hcur; simpl.
  - case_decide; [constructor|]. by repeat constructor.
  - destruct (is_space a) eqn:Ha.
    + case_decide; [by apply IH|].
      constructor; [done|by apply IH].
    + apply IH. rewrite has_space_app. simpl. by rewrite Hcur, Ha.
Qed.

(** Reading a word [w] extends the run being read. *)
Lemma split_from_word (w cur rest : string) :
  has_space w = false →
  split_from cur (w +:+ rest) = split_from (cur +:+ w) rest.
Proof.
  revert cur. induction w as [|a w IH]; intros cur Hw.
  - by rewrite string_app_nil_r.
  - simpl in Hw. apply orb_false_iff in Hw as [Ha Hw].
    rewrite string_app_cons. simpl.
    rewrite Ha, IH by done. by rewrite string_app_assoc.
Qed.

Lemma split_from_space (cur rest : string) :
  cur ≠ "" → split_from cur (" " +:+ rest) = cur :: split_from "" rest.
Proof.
  intros Hcur. rewrite string_app_cons.
  change ("" +:+ rest) with rest. simpl. by rewrite decide_False.
Qed.

Lemma split_join (ws : list string) :
  Forall word ws → split (join " " ws) = ws.
Proof.
  unfold split. induction 1 as [|w ws [Hne Hw] Hws IH]; [done|].
  destruct ws as [|w' ws].
  - change (join " " [w]) with w. rewrite <- (string_app_nil_r w) at 1.
    rewrite split_from_word by done. change ("" +:+ w) with w.
    simpl. by rewrite decide_False.
  - change (join " " (w :: w' :: ws)) with (w +:+ " " +:+ join " " (w' :: ws)).
    rewrite split_from_word by done. change ("" +:+ w) with w.
    rewrite split_from_space by done. by rewrite IH.
Qed.

Lemma only_plain_spaces_app (s1 s2 : string) :
  only_plain_spaces (s1 +:+ s2) = only_plain_spaces s1 && only_plain_spaces s2.
Proof.
  induction s1 as [|a s1 IH]; [done|].
  rewrite string_app_cons. simpl. by rewrite IH, andb_assoc.
Qed.

Lemma only_plain_spaces_word (w : string) :
  has_space w = false → only_plain_spaces w = true.
Proof.
  induction w as [|a w IH]; simpl; [done|].
  intros [Ha Hw]%orb_false_iff. rewrite Ha. simpl. by apply IH.
Qed.

Lemma only_plain_spaces_join (ws : list string) :
  Forall word ws → only_plain_spaces (join " " ws) = true.
Proof.
  induction 1 as [|w ws [Hne Hw] Hws IH]; [done|].
  destruct ws as [|w' ws].
  - by apply only_plain_spaces_word.
  - change (join " " (w :: w' :: ws)) with (w +:+ " " +:+ join " " (w' :: ws)).
    rewrite !only_plain_spaces_app, IH, only_plain_spaces_word by done.
    reflexivity.
Qed.




(** ** [str.endswith] *)

Lemma string_length_app (s1 s2 : string) :
  String.length (s1 +:+ s2) = (String.length s1 + String.length s2)%nat.
Proof.
  induction s1 as [|a s1 IH]; [done|].
  rewrite string_app_cons. simpl. by rewrite IH.
Qed.

Lemma substring_all (s : string) : String.substring 0 (String.length s) s = s.
Proof. induction s as [|a s IH]; simpl; [done|by rewrite IH]. Qed.

Lemma substring_skip (p s : string) (m : nat) :
  String.substring (String.length p) m (p +:+ s) = String.substring 0 m s.
Proof.
  induction p as [|a p IH]; [done|].
  rewrite string_app_cons. simpl. apply IH.
Qed.

(** A string is what comes before position [k] followed by the rest. *)
Lemma substring_split (s : string) (k : nat) :
  (k ≤ String.length s)%nat →
  s = String.substring 0 k s +:+ String.substring k (String.length s - k) s.
Proof.
  revert k. induction s as [|a s IH]; intros k Hk.
  - simpl in Hk. by replace k with 0%nat by lia.
  - destruct k as [|k].
    + simpl. by rewrite substring_all.
    + simpl in Hk. simpl. rewrite string_app_cons. f_equal. apply IH. lia.
Qed.

(** X3: [endswith s suffix] holds exactly when [s] is some string
    followed by [suffix]. *)
Theorem endswith_iff_suffix (s suffix : string) :
  endswith s suffix = true ↔ ∃ p, s = p +:+ suffix.
Proof.
  unfold endswith. rewrite andb_true_iff, Nat.leb_le, String.eqb_eq. split.
  - intros [Hle Hsub].
    exists (String.substring 0 (String.length s - String.length suffix) s).
    pose proof (substring_split s (String.length s - String.length suffix)) as Hs.
    replace (String.length s - (String.length s - String.length suffix))%nat
      with (String.length suffix) in Hs by lia.
    rewrite Hsub in Hs. apply Hs. lia.
  - intros [p ->]. rewrite string_length_app. split; [lia|].
    replace (String.length p + String.length suffix - String.length suffix)%nat
      with (String.length p) by lia.
    by rewrite substring_skip, substring_all.
Qed.

(** ** The project classifier *)

#[export] Instance same_suspect_projects_preorder : PreOrder same_suspect_projects.
Proof. split; [by intros ?|intros ???; unfold same_suspect_projects; congruence]. Qed.

Lemma result_mapM_Ok_id {A} (l : list A) : result_mapM Ok l = Ok l.
Proof.
  induction l as [|x l IH]; [done|].
  simpl. by rewrite IH.
Qed.

Lemma versions_in_phase_filter (phase : string) (l : list value) :
  forallb has_phase l = true →
  versions_in_phase phase l = Ok (List.filter (phase_is phase) l).
Proof.
  intros Hl. unfold versions_in_phase.
  rewrite (result_filter_map_pure _ (phase_is phase)).
  - apply result_mapM_Ok_id.
  - intros v Hv. apply (forallb_elem_of _ _ _ Hl) in Hv.
    unfold has_phase in Hv. unfold phase_is.
    by destruct (getitem v "phase").
Qed.

Lemma items_or_empty_getitem (x : value) (l : list value) :
  items_or_empty x = Ok (VList l) → l ≠ [] → getitem x "items" = Ok (VList l).
Proof.
  unfold items_or_empty. intros Hx Hl.
  destruct (if truthy x then contains "items" x else Ok false) as [[]|e];
    [done| |done].
  rewrite result_bind_Ok in Hx. by injection Hx as <-.
Qed.

Lemma run_modify {B} (f : AnalysisState → AnalysisState) (g : () → M B) (m : machine) :
  (modify f ≫= g) m = g () {| state := f (state m); disk := disk m |}.
Proof. reflexivity. Qed.

Lemma run_ret {A B} (a : A) (g : A → M B) (m : machine) : (mret a ≫= g) m = g a m.
Proof. reflexivity. Qed.

Section ProjectClassifier.
Variables (py : Python) (sage : BlackDuckSage).
Variables (project_name hp versions : value).
Variables (dp : gmap string value) (l : list value).
Hypothesis project_has_name : dp !! "name" = Some project_name.
Hypothesis project_has_locator : locator dp = Some hp.
Hypothesis versions_fetched :
  get_project_versions (hub sage) (VDict dp) = Returns versions.
Hypothesis versions_items : items_or_empty versions = Ok (VList l).

Lemma analyze_project_classified m :
  ((max_versions_per_project sage < Z.of_nat (length l))%Z →
   forallb has_phase l = true) →
  analyze_project py sage (VDict dp) m =
  analyze_versions_and_record py sage (VDict dp) project_name l
    {| state := project_outcome py sage project_name (summary dp hp ∅) l (state m);
       disk := disk m |}.
Proof.
  intros Hphase. destruct m as [s d]. cbn [state disk]. unfold analyze_project.
  rewrite (getitem_dict _ _ _ project_has_name), run_lift_Ok.
  unfold try_except_else. rewrite versions_fetched.
  change (call sage (Returns versions) ?x) with (Ok versions, x).
  cbv beta iota.
  rewrite versions_items, run_lift_Ok.
  change (py_len (VList l)) with (Ok (length l)). rewrite run_lift_Ok.
  rewrite (copy_common_attributes_Ok _ _ _ project_has_locator), run_lift_Ok.
  unfold project_outcome, analyze_versions_and_record.
  change (py_iter (VList l)) with (Ok l).
  destruct (decide (length l = 0)) as [Hzero|Hzero].
  { rewrite run_modify, run_lift_Ok. reflexivity. }
  destruct (decide (max_versions_per_project sage < Z.of_nat (length l))%Z)
    as [Hmax|Hmax].
  2:{ rewrite run_ret, run_lift_Ok. reflexivity. }
  rewrite bind_run.
  rewrite (items_or_empty_getitem _ _ versions_items) by (by destruct l).
  rewrite run_lift_Ok.
  change (py_iter (VList l)) with (Ok l). rewrite run_lift_Ok.
  rewrite !versions_in_phase_filter by auto.
  rewrite !run_lift_Ok. reflexivity.
Qed.

Lemma analyze_versions_and_record_suspect_projects :
  respects same_suspect_projects
    (analyze_versions_and_record py sage (VDict dp) project_name l).
Proof.
  unfold analyze_versions_and_record.
  apply (respects_bind same_suspect_projects).
  - apply respects_for_each; [apply _|]. intros.
    apply respects_analyze_unreviewed_version; [apply _|intros; red; reflexivity..].
  - intros. apply (respects_bind same_suspect_projects);
      [apply respects_lift, _|].
    intros. apply respects_modify. intros; red; reflexivity.
Qed.
End ProjectClassifier.

Lemma suspect_projects_after_versions py sage project_name dp l m :
  suspect_projects
    (state (analyze_versions_and_record py sage (VDict dp) project_name l m).2)
  = suspect_projects (state m).
Proof.
  symmetry.
  eapply (analyze_versions_and_record_suspect_projects py sage project_name dp l).
  apply surjective_pairing.
Qed.

(** X4: on a project whose versions are fetched, with exactly
    [max_versions_per_project] versions, and at least one, nothing is
    appended to [suspect_projects]; with one more, every version having a
    [phase], exactly one finding is appended.  This holds whatever happens
    to the versions afterwards, a finding appended before an exception
    stays. *)
Theorem project_version_threshold_boundary (py : Python) (sage : BlackDuckSage)
    (project_name hp versions : value) (dp : gmap string value)
    (l : list value) (m : machine) :
  dp !! "name" = Some project_name →
  locator dp = Some hp →
  get_project_versions (hub sage) (VDict dp) = Returns versions →
  items_or_empty versions = Ok (VList l) →
  (Z.of_nat (length l) = max_versions_per_project sage → (1 ≤ length l)%nat →
   suspect_projects (state (analyze_project py sage (VDict dp) m).2)
     = suspect_projects (state m)) ∧
  (Z.of_nat (length l) = (max_versions_per_project sage + 1)%Z →
   forallb has_phase l = true →
   ∃ finding,
     suspect_projects (state (analyze_project py sage (VDict dp) m).2)
       = (suspect_projects (state m) ++ [finding])%list).
Proof.
  intros Hname Hloc Hfetch Hitems.
  split.
  - intros Hmax Hone.
    rewrite (analyze_project_classified py sage project_name hp versions dp l)
      by (done || lia).
    rewrite suspect_projects_after_versions. unfold project_outcome. simpl.
    rewrite decide_False by lia. by rewrite decide_False by lia.
  - intros Hmax Hphase.
    rewrite (analyze_project_classified py sage project_name hp versions dp l)
      by done.
    rewrite suspect_projects_after_versions. unfold project_outcome. simpl.
    destruct (decide (length l = 0)); [by eexists|].
    rewrite decide_True by lia. by eexists.
Qed.

Lemma project_version_threshold_boundary_witness :
  suspect_projects
    (state (analyze_project example_python (with_max_versions 2) (project "p") fresh).2)
    = [] ∧
  ∃ finding,
    suspect_projects
      (state (analyze_project example_python (with_max_versions 1) (project "p") fresh).2)
      = [finding].
Proof.
  split.
  - apply (project_version_threshold_boundary example_python (with_max_versions 2)
             (VStr "p") (VStr "/projects/p") (page two_versions)
             (project_fields "p") two_versions fresh);
      [reflexivity|reflexivity|reflexivity
      |apply items_or_empty_items, lookup_singleton_eq|reflexivity|simpl; lia].
  - apply (project_version_threshold_boundary example_python (with_max_versions 1)
             (VStr "p") (VStr "/projects/p") (page two_versions)
             (project_fields "p") two_versions fresh);
      [reflexivity|reflexivity|reflexivity
      |apply items_or_empty_items, lookup_singleton_eq|reflexivity|reflexivity].
Defined.

(** X5: a project whose listing of versions comes back empty, or without
    [items], yields exactly one finding, with the message "Project ... has
    0 versions. Should it be removed?", and is recorded in the ledger,
    whatever the threshold. *)
Theorem project_without_versions (py : Python) (sage : BlackDuckSage)
    (k : string) (hp versions : value) (dp : gmap string value) (m : machine) :
  dp !! "name" = Some (VStr k) →
  locator dp = Some hp →
  get_project_versions (hub sage) (VDict dp) = Returns versions →
  items_or_empty versions = Ok (VList []) →
  analyze_project py sage (VDict dp) m =
  (Ok (),
   {| state :=
        add_reviewed_project k
          (append_suspect_project
             (VDict (<["message" :=
                         VStr ("Project " +:+ k +:+ " has 0 versions. Should it be removed?")]>
                       (summary dp hp ∅)))
             (state m));
      disk := disk m |}).
Proof.
  intros Hname Hloc Hfetch Hitems.
  rewrite (analyze_project_classified py sage (VStr k) hp versions dp [])
    by (done || (simpl; intros; done)).
  reflexivity.
Qed.

Lemma project_without_versions_witness :
  items_or_empty (VDict ∅) = Ok (VList []) ∧
  (analyze_project example_python (with_hub no_items_hub 10) (project "p") fresh).1
    = Ok () ∧
  suspect_projects
    (state (analyze_project example_python (with_hub no_items_hub 10)
              (project "p") fresh).2)
  = [VDict (<["message" := VStr "Project p has 0 versions. Should it be removed?"]>
             (summary (project_fields "p") (VStr "/projects/p") ∅))].
Proof.
  assert (items_or_empty (VDict ∅) = Ok (VList [])) as Hitems
    by apply items_or_empty_absent, lookup_empty.
  split; [exact Hitems|]. unfold project.
  rewrite (project_without_versions example_python (with_hub no_items_hub 10)
             "p" (VStr "/projects/p") (VDict ∅) (project_fields "p") fresh
             eq_refl eq_refl eq_refl Hitems).
  split; reflexivity.
Defined.

Lemma length_filter_existsb {A} (p : A → bool) (l : list A) :
  length (List.filter p l) = 0%nat ↔ existsb p l = false.
Proof.
  induction l as [|x l IH]; simpl; [done|].
  destruct (p x); simpl; [split; discriminate|done].
Qed.

(** X6: the message of a project with too many versions carries the
    clause on released versions exactly when no version has phase
    RELEASED, the clause on archived versions exactly when none has phase
    ARCHIVED, between the count and the advice, the whole normalized. *)
Theorem too_many_versions_message_clauses (py : Python) (sage : BlackDuckSage)
    (project_name hp versions : value) (dp : gmap string value)
    (l : list value) (m : machine) :
  dp !! "name" = Some project_name →
  locator dp = Some hp →
  get_project_versions (hub sage) (VDict dp) = Returns versions →
  items_or_empty versions = Ok (VList l) →
  (1 ≤ length l)%nat →
  (max_versions_per_project sage < Z.of_nat (length l))%Z →
  forallb has_phase l = true →
  ∃ finding,
    suspect_projects (state (analyze_project py sage (VDict dp) m).2)
      = (suspect_projects (state m) ++ [VDict finding])%list ∧
    finding !! "message" =
      Some (VStr (_remove_white_space
        (too_many_versions_head (py_str py project_name) (pretty (length l))
           (pretty (max_versions_per_project sage))
         +:+ (if existsb (phase_is "RELEASED") l then "" else no_released_clause)
         +:+ (if existsb (phase_is "ARCHIVED") l then "" else no_archived_clause)
         +:+ review_versions_advice))).
Proof.
  intros Hname Hloc Hfetch Hitems Hone Hmax Hphase.
  rewrite (analyze_project_classified py sage project_name hp versions dp l) by done.
  rewrite suspect_projects_after_versions. cbn [state].
  unfold project_outcome. rewrite decide_False by lia. rewrite decide_True by done.
  eexists. split; [reflexivity|]. rewrite lookup_insert_eq. do 2 f_equal.
  unfold too_many_versions_message. f_equal.
  destruct (existsb (phase_is "RELEASED") l) eqn:Hrel;
    destruct (existsb (phase_is "ARCHIVED") l) eqn:Harc;
    repeat case_decide;
    rewrite ?length_filter_existsb in *; try congruence;
    change ("" +:+ ?x) with x; by rewrite ?string_app_assoc.
Qed.

Lemma too_many_versions_message_clauses_witness :
  ∃ finding,
    suspect_projects
      (state (analyze_project example_python (with_max_versions 1) (project "p") fresh).2)
      = [VDict finding] ∧
    finding !! "message" =
      Some (VStr "Project p has 2 versions which is greater than the recommend maximum of 1. There are 0 versions that have been released. There are 0 versions that have been archived.You should review these versions and remove extraneous ones, and their scans, to reclaim space and reduce clutter. Typically there should be one version per development branch, and one version per release. When new vulnerabilities are published you want to be able to quickly identify which projects are affected and take action. Keeping a large number of un-released versions in the system will make that difficult. And accruing a large number of versions per project can lead to serious performance degradation. Look at https://github.com/blackducksoftware/hub-rest-api-python/tree/master/examples for python examples for finding/deleting/removing versions and their scans").
Proof.
  destruct (too_many_versions_message_clauses example_python (with_max_versions 1)
              (VStr "p") (VStr "/projects/p") (page two_versions)
              (project_fields "p") two_versions fresh)
    as (finding & Hfinding & Hmessage);
    [reflexivity|reflexivity|reflexivity
    |apply items_or_empty_items, lookup_singleton_eq
    |simpl; lia|simpl; lia|reflexivity|].
  exists finding. split; [exact Hfinding|].
  rewrite Hmessage. vm_compute. reflexivity.
Defined.

Lemma result_filter_map_cons {A B} (p : A → result bool) (f : A → result B) x l :
  result_filter_map p f (x :: l) =
  b ← p x;
  if b : bool
  then y ← f x; ys ← result_filter_map p f l; mret (y :: ys)
  else result_filter_map p f l.
Proof. reflexivity. Qed.

Lemma versions_in_phase_missing (phase : string) (l : list value) :
  forallb is_dict l = true →
  forallb has_phase l = false →
  versions_in_phase phase l = Raise (KeyError "phase").
Proof.
  unfold versions_in_phase.
  induction l as [|v l IH]; [done|].
  cbn [forallb]. intros [Hv Hl]%andb_true_iff Hphase.
  rewrite result_filter_map_cons.
  destruct v as [| | | | | |d]; try done.
  destruct (d !! "phase") as [p|] eqn:Ep.
  - unfold has_phase in Hphase at 1.
    rewrite (getitem_dict _ _ _ Ep) in Hphase. simpl in Hphase.
    rewrite (getitem_dict _ _ _ Ep), result_bind_Ok.
    change (mret (is_str phase p)) with (Ok (is_str phase p)).
    rewrite result_bind_Ok.
    rewrite IH by done. by destruct (is_str phase p).
  - by rewrite (getitem_missing _ _ Ep).
Qed.

(** X7: when a project has too many versions and one of its version
    records has no [phase], [analyze_project] raises [KeyError] before it
    has written anything: no finding, no entry in the ledger, and the
    versions are not analysed. *)
Theorem version_without_phase_aborts (py : Python) (sage : BlackDuckSage)
    (project_name hp versions : value) (dp : gmap string value)
    (l : list value) (m : machine) :
  dp !! "name" = Some project_name →
  locator dp = Some hp →
  get_project_versions (hub sage) (VDict dp) = Returns versions →
  items_or_empty versions = Ok (VList l) →
  (1 ≤ length l)%nat →
  (max_versions_per_project sage < Z.of_nat (length l))%Z →
  forallb is_dict l = true →
  forallb has_phase l = false →
  analyze_project py sage (VDict dp) m = (Raise (KeyError "phase"), m).
Proof.
  intros Hname Hloc Hfetch Hitems Hone Hmax Hdict Hphase.
  unfold analyze_project.
  rewrite (getitem_dict _ _ _ Hname), run_lift_Ok.
  unfold try_except_else. rewrite Hfetch.
  change (call sage (Returns versions) m) with (Ok versions, m).
  cbv beta iota.
  rewrite Hitems, run_lift_Ok.
  change (py_len (VList l)) with (Ok (length l)). rewrite run_lift_Ok.
  rewrite (copy_common_attributes_Ok _ _ _ Hloc), run_lift_Ok.
  rewrite decide_False by lia. rewrite decide_True by done.
  rewrite bind_run.
  rewrite (items_or_empty_getitem _ _ Hitems) by (by destruct l).
  rewrite run_lift_Ok.
  change (py_iter (VList l)) with (Ok l). rewrite run_lift_Ok.
  rewrite (versions_in_phase_missing "RELEASED") by done.
  by rewrite run_lift_Raise.
Qed.

Lemma version_without_phase_aborts_witness :
  analyze_project example_python missing_phase_sage (project "p") fresh
  = (Raise (KeyError "phase"), fresh).
Proof.
  apply (version_without_phase_aborts example_python missing_phase_sage
           (VStr "p") (VStr "/projects/p")
           (page [version "v1"; version_without_phase "v2"])
           (project_fields "p") [version "v1"; version_without_phase "v2"] fresh);
    [reflexivity|reflexivity|reflexivity
    |apply items_or_empty_items, lookup_singleton_eq
    |simpl; lia|simpl; lia|reflexivity|reflexivity].
Defined.

(** ** Findings, snapshot and checkpoint over a run *)

#[export] Instance findings_extended_preorder : PreOrder findings_extended.
Proof.
  split.
  - intros s. by split_and!.
  - intros s1 s2 s3 (? & ? & ?) (? & ? & ?). split_and!; by etrans.
Qed.

(** X8: the three lists of findings are append-only: after [analyze],
    [analyze_project] or [analyze_version], whatever the outcome, each
    list starts with what it held before. *)
Theorem findings_append_only (py : Python) (sage : BlackDuckSage) :
  (∀ elapsed, respects findings_extended (analyze py sage elapsed)) ∧
  (∀ project, respects findings_extended (analyze_project py sage project)) ∧
  (∀ project_name version,
     respects findings_extended (analyze_version py sage project_name version)).
Proof.
  assert (∀ (x : value) s, findings_extended s (append_suspect_project x s)) as H1
    by (intros; split_and!; simpl; by try apply prefix_app_r).
  assert (∀ (x : value) s, findings_extended s (append_suspect_version x s)) as H2
    by (intros; split_and!; simpl; by try apply prefix_app_r).
  assert (∀ k s, findings_extended s (add_reviewed_project k s)) as H3
    by (intros; by split_and!).
  assert (∀ k s, findings_extended s (add_reviewed_version k s)) as H4
    by (intros; by split_and!).
  assert (∀ (x : value) s, findings_extended s (append_other_issue x s)) as H5
    by (intros; split_and!; simpl; by try apply prefix_app_r).
  assert (∀ (x : value) s, findings_extended s (set_unmapped_scans x s)) as H6
    by (intros; by split_and!).
  split_and!; intros.
  - apply respects_analyze; first [apply _|done].
  - apply respects_analyze_project; first [apply _|done].
  - apply respects_analyze_version; first [apply _|done].
Qed.

Lemma findings_append_only_witness :
  failed_fetch_run = (failed_fetch_run.1, failed_fetch_run.2) ∧
  findings_extended (state fresh) (state failed_fetch_run.2).
Proof.
  split; [apply surjective_pairing|].
  destruct (findings_append_only example_python
              (with_hub (two_versions_hub (Fails (HubError "timeout"))) 10))
    as (Hanalyze & _ & _).
  apply (Hanalyze 0%Q fresh failed_fetch_run.1 failed_fetch_run.2).
  apply surjective_pairing.
Defined.

Lemma run_gets {A B} (f : AnalysisState → A) (g : A → M B) (m : machine) :
  (gets f ≫= g) m = g (f (state m)) m.
Proof. reflexivity. Qed.

Lemma same_unmapped_scans_after_timing py sage elapsed s :
  unmapped_scans (after_timing py sage elapsed s) = unmapped_scans s.
Proof. unfold after_timing. by destruct (Qle_bool _ _). Qed.

(** X9: the snapshot of the unmapped scans is taken once: when the state
    holds one, [analyze] leaves it as it is and does not ask the server for
    the unmapped scans, the run being the same whatever that listing would
    answer. *)
Theorem unmapped_snapshot_is_kept (py : Python) (sage : BlackDuckSage)
    (elapsed : Q) (m : machine) (r : reply) :
  is_empty_dict_value (unmapped_scans (state m)) = false →
  unmapped_scans (state (analyze py sage elapsed m).2) = unmapped_scans (state m) ∧
  analyze py (with_codelocations sage r) elapsed m = analyze py sage elapsed m.
Proof.
  intros Hsnapshot.
  assert (∀ sage', max_time_to_retrieve_projects sage' = max_time_to_retrieve_projects sage →
    analyze py sage' elapsed m =
    (projects ← call sage' (get_projects (hub sage'));
     items ← lift (getitem projects "items");
     _ ← lift (py_len items);
     modify (λ s, after_timing py sage elapsed s);;
     items ← lift (getitem projects "items");
     l ← lift (py_iter items);
     for_each l (analyze_unreviewed_project py sage');;
     _write_results sage') m) as Hrun.
  { intros sage' Hmax. destruct m as [s d]. cbn [state] in Hsnapshot.
    unfold analyze. rewrite !bind_run.
    destruct (call sage' _ _) as [[projects|e] m0] eqn:Ecall; [|done].
    apply call_cases in Ecall as [(? & _ & [= <-] & ->)|(? & ? & _)]; [|done].
    destruct (getitem projects "items") as [items|e];
      [rewrite !run_lift_Ok|by rewrite !run_lift_Raise].
    destruct (py_len items) as [n|e];
      [rewrite !run_lift_Ok|by rewrite !run_lift_Raise].
    rewrite Hmax, (run_modify (after_timing py sage elapsed)).
    unfold after_timing, slow_listing_issue.
    destruct (Qle_bool elapsed _).
    - rewrite run_ret, run_gets. cbn [state]. by rewrite Hsnapshot, run_ret.
    - rewrite run_modify, run_gets. cbn [state].
      change (unmapped_scans (append_other_issue ?x s)) with (unmapped_scans s).
      by rewrite Hsnapshot, run_ret. }
  split.
  - rewrite (Hrun sage eq_refl).
    match goal with
    | |- unmapped_scans (state (?c m).2) = _ =>
        assert (respects same_unmapped_scans c) as Hc
    end.
    { repeat first
        [ apply (respects_lift same_unmapped_scans)
        | apply (respects_call same_unmapped_scans)
        | apply respects_modify; intros; red; symmetry;
            apply same_unmapped_scans_after_timing
        | apply (respects_write_results same_unmapped_scans)
        | apply respects_for_each; [apply _|];
            intros; apply respects_analyze_unreviewed_project;
            [apply _|intros; red; reflexivity..]
        | apply (respects_bind same_unmapped_scans); [|intros] ]. }
    symmetry. eapply Hc. apply surjective_pairing.
  - rewrite (Hrun sage eq_refl), (Hrun (with_codelocations sage r) eq_refl).
    destruct sage as [[gp gpv gvc gc url] mv ms mt]. reflexivity.
Qed.

Lemma unmapped_snapshot_is_kept_witness :
  is_empty_dict_value (unmapped_scans (state quick_run.2)) = false ∧
  unmapped_scans (state (analyze example_python (with_hub empty_hub 10) 0%Q quick_run.2).2)
    = unmapped_scans (state quick_run.2) ∧
  analyze example_python
    (with_codelocations (with_hub empty_hub 10) (Fails (HubError "no"))) 0%Q quick_run.2
  = analyze example_python (with_hub empty_hub 10) 0%Q quick_run.2.
Proof.
  assert (is_empty_dict_value (unmapped_scans (state quick_run.2)) = false) as H
    by (vm_compute; reflexivity).
  split; [exact H|].
  apply (unmapped_snapshot_is_kept example_python (with_hub empty_hub 10) 0%Q
           quick_run.2 (Fails (HubError "no")) H).
Defined.

Lemma result_mapM_fmap {A B} (f : A → result B) (g : A → B) (l : list A) :
  (∀ x, x ∈ l → f x = Ok (g x)) → result_mapM f l = Ok (g <$> l).
Proof.
  induction l as [|x l IH]; intros Hf; [done|].
  simpl. rewrite (Hf x) by by left. rewrite result_bind_Ok.
  rewrite IH by (intros; apply Hf; by right). reflexivity.
Qed.

(** X10: when its listing returns records that all have their locator,
    [get_unmapped_scans] returns the summary of every one of them, in the
    order of the listing, and leaves the state alone. *)
Theorem unmapped_scans_are_all_summarized (sage : BlackDuckSage)
    (d : gmap string value) (l : list value) (m : machine) :
  get_codelocations (hub sage) = Returns (VDict d) →
  d !! "items" = Some (VList l) →
  forallb has_locator l = true →
  get_unmapped_scans sage m = (Ok (summary_of <$> l), m) ∧
  ∀ i ds, l !! i = Some (VDict ds) →
    ∃ h, locator ds = Some h ∧
      (summary_of <$> l) !! i = Some (VDict (summary ds h ∅)).
Proof.
  intros Hfetch Hitems Hl. split.
  - unfold get_unmapped_scans. rewrite Hfetch.
    change (call sage (Returns (VDict d))) with (@mret M _ _ (VDict d)).
    rewrite run_ret, (getitem_dict _ _ _ Hitems), run_lift_Ok.
    change (py_iter (VList l)) with (Ok l). rewrite run_lift_Ok.
    rewrite (result_mapM_fmap _ summary_of); [done|].
    intros s Hs. apply (forallb_elem_of _ _ _ Hl) in Hs.
    destruct s as [| | | | | |ds]; try done. simpl in Hs.
    unfold summary_of. destruct (locator ds) as [h|] eqn:Hloc; [|done].
    by rewrite (copy_common_attributes_Ok _ _ _ Hloc).
  - intros i ds Hi.
    assert (has_locator (VDict ds) = true) as Hds.
    { apply (forallb_elem_of _ _ _ Hl). by eapply list_elem_of_lookup_2. }
    simpl in Hds. destruct (locator ds) as [h|] eqn:Hloc; [|done].
    exists h. split; [done|].
    rewrite list_lookup_fmap, Hi. simpl. by rewrite Hloc.
Qed.

Lemma unmapped_scans_are_all_summarized_witness :
  get_unmapped_scans (with_hub unmapped_hub 10) fresh =
  (Ok [VDict (summary (scan_fields "old-scan") (VStr "/codelocations/old-scan") ∅);
       VDict (summary (scan_fields "old-bom") (VStr "/codelocations/old-bom") ∅)],
   fresh).
Proof.
  apply (unmapped_scans_are_all_summarized (with_hub unmapped_hub 10)
           (items_of [scan "old-scan"; scan "old-bom"])
           [scan "old-scan"; scan "old-bom"] fresh); reflexivity.
Defined.

(** X11: a run of [analyze] that completes has written the checkpoint of
    the state it ends in, and every project of the listing has been
    processed: its name is in the ledger, or its versions could not be
    fetched. *)
Theorem completed_run_is_saved (py : Python) (sage : BlackDuckSage)
    (elapsed : Q) (m m' : machine) :
  analyze py sage elapsed m = (Ok (), m') →
  disk m' = Some (checkpoint sage (state m')) ∧
  ∃ projects items l,
    get_projects (hub sage) = Returns projects ∧
    getitem projects "items" = Ok items ∧
    py_iter items = Ok l ∧
    ∀ project, project ∈ l → project_processed sage project (state m').
Proof.
  intros Hrun.
  apply analyze_Ok_inv in Hrun
    as (projects & items & n & l & ma & mb & Hr & Hitems & Hn & Hl & _ & Hloop & ->).
  split; [done|]. exists projects, items, l. split_and!; [done..|].
  by apply (for_each_projects_processed _ _ _ _ _ Hloop).
Qed.

Lemma completed_run_is_saved_witness :
  failed_fetch_run = (Ok (), failed_fetch_run.2) ∧
  disk failed_fetch_run.2
    = Some (checkpoint (with_hub (two_versions_hub (Fails (HubError "timeout"))) 10)
              (state failed_fetch_run.2)).
Proof.
  assert (failed_fetch_run = (Ok (), failed_fetch_run.2)) as Hrun
    by (vm_compute; reflexivity).
  split; [exact Hrun|].
  apply (completed_run_is_saved example_python
           (with_hub (two_versions_hub (Fails (HubError "timeout"))) 10)
           0%Q fresh failed_fetch_run.2 Hrun).
Defined.

(** X12: a signal that arrives during the listing of the projects, which
    no [try] surrounds, ends [analyze] with the handler's [OSError]; the
    file then holds the checkpoint of the state at that moment, and the
    resume mode reads that state back. *)
Theorem interrupt_during_listing (py : Python) (sage : BlackDuckSage)
    (elapsed : Q) (m : machine) :
  get_projects (hub sage) = Interrupted →
  analyze py sage elapsed m =
    (Raise (OSError "Interruped"),
     {| state := state m; disk := Some (checkpoint sage (state m)) |}) ∧
  __init__ "resume" (Some (checkpoint sage (state m))) = Ok (state m).
Proof.
  intros Hr. split; [|apply init_resume_checkpoint].
  unfold analyze. by rewrite Hr.
Qed.

Lemma interrupt_during_listing_witness :
  get_projects interrupted_listing_hub = Interrupted ∧
  analyze example_python (with_hub interrupted_listing_hub 10) 0%Q failed_fetch_run.2
  = (Raise (OSError "Interruped"),
     {| state := state failed_fetch_run.2;
        disk := Some (checkpoint (with_hub interrupted_listing_hub 10)
                        (state failed_fetch_run.2)) |}).
Proof.
  split; [reflexivity|].
  apply (interrupt_during_listing example_python (with_hub interrupted_listing_hub 10)
           0%Q failed_fetch_run.2 eq_refl).
Defined.

(** ** Keys, checkpoint fields and failures *)

(** X13: the key of a version is the project name, a colon and the
    version name, so two versions share a key when the colon can be read
    at two places: once version [v] of project [p:q] is in the ledger,
    version [q:v] of project [p] is skipped, without a call on the
    server. *)
Theorem version_key_collision (py : Python) (sage : BlackDuckSage)
    (p q v : string) (dp dv : gmap string value) (m : machine) :
  version_key py (VStr (p +:+ ":" +:+ q)) (VStr v)
    = version_key py (VStr p) (VStr (q +:+ ":" +:+ v)) ∧
  (dp !! "name" = Some (VStr p) →
   dv !! "versionName" = Some (VStr (q +:+ ":" +:+ v)) →
   version_key py (VStr (p +:+ ":" +:+ q)) (VStr v) ∈ reviewed_versions (state m) →
   analyze_unreviewed_version py sage (VDict dp) (VDict dv) m = (Ok (), m)).
Proof.
  assert (version_key py (VStr (p +:+ ":" +:+ q)) (VStr v)
          = version_key py (VStr p) (VStr (q +:+ ":" +:+ v))) as Hkey.
  { unfold version_key. simpl. by rewrite !string_app_assoc. }
  split; [exact Hkey|].
  intros Hname Hversion Hin. unfold analyze_unreviewed_version.
  rewrite (getitem_dict _ _ _ Hname), run_lift_Ok.
  rewrite (getitem_dict _ _ _ Hversion), run_lift_Ok.
  rewrite run_gets, <- Hkey. by rewrite decide_True.
Qed.

Lemma version_key_collision_witness :
  ("a:b:c" ∈ reviewed_versions
     (state {| state := add_reviewed_version "a:b:c" new_state; disk := None |})) ∧
  analyze_unreviewed_version example_python (with_hub empty_hub 10)
    (project "a") (version "b:c")
    {| state := add_reviewed_version "a:b:c" new_state; disk := None |}
  = (Ok (), {| state := add_reviewed_version "a:b:c" new_state; disk := None |}).
Proof.
  assert ("a:b:c" ∈ reviewed_versions
     (state {| state := add_reviewed_version "a:b:c" new_state; disk := None |})) as Hin
    by (refine (bool_decide_unpack _ _); vm_compute; exact I).
  split; [exact Hin|].
  by apply (version_key_collision example_python (with_hub empty_hub 10)
              "a" "b" "c" (project_fields "a") (version_fields "b:c")).
Defined.

Lemma init_resume_Ok_fields (d : gmap string value) (s : AnalysisState) (k : string) :
  __init__ "resume" (Some (VDict d)) = Ok s → k ∈ STATE_FIELDS → is_Some (d !! k).
Proof.
  intros Hinit Hk. unfold __init__ in Hinit. simpl in Hinit.
  unfold mbind, result_bind, getitem in Hinit.
  repeat match type of Hinit with
  | match match ?y with _ => _ end with _ => _ end = Ok _ =>
      destruct y eqn:?; try discriminate Hinit
  | match ?x with _ => _ end = Ok _ =>
      destruct x eqn:?; try discriminate Hinit
  end.
  unfold STATE_FIELDS in Hk.
  repeat (apply elem_of_cons in Hk as [->|Hk]; [by eexists|]).
  by apply not_elem_of_nil in Hk.
Qed.

(** X14: the resume mode needs each of the six fields of the state: a
    checkpoint from which one is missing makes [__init__] raise.  It does
    not read [hub_url]: a checkpoint is accepted whatever server it was
    written for. *)
Theorem resume_reads_six_fields (d : gmap string value) (k : string) :
  (k ∈ STATE_FIELDS → d !! k = None →
   ∃ e, __init__ "resume" (Some (VDict d)) = Raise e) ∧
  __init__ "resume" (Some (VDict (delete "hub_url" d)))
    = __init__ "resume" (Some (VDict d)).
Proof.
  split.
  - intros Hk Hmissing.
    destruct (__init__ "resume" (Some (VDict d))) as [s|e] eqn:Hinit; [|by eexists].
    destruct (init_resume_Ok_fields d s k Hinit Hk) as [v Hv]. congruence.
  - unfold __init__. simpl. unfold getitem.
    by rewrite !lookup_delete_ne by done.
Qed.

Lemma resume_reads_six_fields_witness :
  ("reviewed_versions" ∈ STATE_FIELDS) ∧
  ({[ "other_issues" := VList [] ]} : gmap string value) !! "reviewed_versions" = None ∧
  ∃ e, __init__ "resume" (Some (VDict {[ "other_issues" := VList [] ]})) = Raise e.
Proof.
  assert ("reviewed_versions" ∈ STATE_FIELDS) as Hin
    by (refine (bool_decide_unpack _ _); vm_compute; exact I).
  split_and!; [exact Hin|reflexivity|].
  by apply (resume_reads_six_fields {[ "other_issues" := VList [] ]} "reviewed_versions").
Defined.

(** X15: a call on the server that raises, whatever it raises, ends
    neither [analyze_project] nor [analyze_version]: each returns, and
    neither the state nor the file has changed. *)
Theorem fetch_failure_is_skipped (py : Python) (sage : BlackDuckSage)
    (project version project_name name version_name : value) (e : exn)
    (m : machine) :
  (getitem project "name" = Ok name →
   get_project_versions (hub sage) project = Fails e →
   analyze_project py sage project m = (Ok (), m)) ∧
  (getitem version "versionName" = Ok version_name →
   get_version_codelocations (hub sage) version = Fails e →
   analyze_version py sage project_name version m = (Ok (), m)).
Proof.
  split; intros Hname Hfetch.
  - unfold analyze_project. rewrite Hname, run_lift_Ok.
    unfold try_except_else. by rewrite Hfetch.
  - unfold analyze_version. rewrite Hname, run_lift_Ok.
    unfold try_except_else. by rewrite Hfetch.
Qed.

Lemma fetch_failure_is_skipped_witness :
  analyze_version example_python
    (with_hub (two_versions_hub (Fails (HubError "timeout"))) 10)
    (VStr "p") (version "v1") fresh
  = (Ok (), fresh).
Proof.
  by apply (fetch_failure_is_skipped example_python
              (with_hub (two_versions_hub (Fails (HubError "timeout"))) 10)
              (project "p") (version "v1") (VStr "p") (VStr "p") (VStr "v1")
              (HubError "timeout") fresh).
Defined.

(** X16: a version whose listing of scans comes back empty, or without
    [items], yields exactly one finding, with the message "Project ...,
    version ... has 0 scans. Should it be removed?" and no scan breakdown,
    and its key is recorded, whatever the threshold. *)
Theorem version_without_scans (py : Python) (sage : BlackDuckSage)
    (project_name version_name hv scans : value) (dv : gmap string value)
    (m : machine) :
  dv !! "versionName" = Some version_name →
  locator dv = Some hv →
  get_version_codelocations (hub sage) (VDict dv) = Returns scans →
  items_or_empty scans = Ok (VList []) →
  ∃ finding,
    analyze_version py sage project_name (VDict dv) m =
    (Ok (),
     {| state :=
          add_reviewed_version (version_key py project_name version_name)
            (append_suspect_version (VDict finding) (state m));
        disk := disk m |}) ∧
    finding !! "message" =
      Some (VStr ("Project " +:+ py_str py project_name +:+ ", version "
                  +:+ py_str py version_name
                  +:+ " has 0 scans. Should it be removed?")) ∧
    finding !! "signature_scan_info" = None ∧
    finding !! "bom_scan_info" = None.
Proof.
  intros Hname Hloc Hfetch Hitems.
  exists (<["message" := VStr (zero_scans_message (py_str py project_name)
                                 (py_str py version_name))]>
            (summary dv hv {[ "project_name" := project_name ]})).
  split_and!.
  - unfold analyze_version.
    rewrite (getitem_dict _ _ _ Hname), run_lift_Ok.
    unfold try_except_else. rewrite Hfetch.
    change (call sage (Returns scans) m) with (Ok scans, m).
    cbv beta iota.
    rewrite Hitems, run_lift_Ok.
    change (py_len (VList [])) with (Ok 0%nat). rewrite run_lift_Ok.
    by rewrite (copy_common_attributes_Ok _ _ _ Hloc), run_lift_Ok.
  - by rewrite lookup_insert_eq.
  - rewrite lookup_insert_ne by done. rewrite lookup_summary.
    rewrite lookup_singleton_ne by done. rewrite decide_False by done.
    rewrite decide_False; [done|]. unfold COMMON_ATTRIBUTES.
    intros Hin. repeat (apply elem_of_cons in Hin as [?|Hin]; [done|]).
    by apply not_elem_of_nil in Hin.
  - rewrite lookup_insert_ne by done. rewrite lookup_summary.
    rewrite lookup_singleton_ne by done. rewrite decide_False by done.
    rewrite decide_False; [done|]. unfold COMMON_ATTRIBUTES.
    intros Hin. repeat (apply elem_of_cons in Hin as [?|Hin]; [done|]).
    by apply not_elem_of_nil in Hin.
Qed.

Lemma version_without_scans_witness :
  ∃ finding,
    analyze_version example_python (with_hub no_items_hub 10) (VStr "p")
      (version "v1") fresh
    = (Ok (),
       {| state := add_reviewed_version "p:v1"
                     (append_suspect_version (VDict finding) new_state);
          disk := None |}) ∧
    finding !! "message" =
      Some (VStr "Project p, version v1 has 0 scans. Should it be removed?").
Proof.
  destruct (version_without_scans example_python (with_hub no_items_hub 10)
              (VStr "p") (VStr "v1") (VStr "/versions/v1") (VDict ∅)
              (version_fields "v1") fresh)
    as (finding & Hrun & Hmessage & _);
    [reflexivity|reflexivity|reflexivity
    |apply items_or_empty_absent, lookup_empty|].
  exists finding. split; [exact Hrun|exact Hmessage].
Defined.

(** ** What a failed run leaves on disk *)

Lemma keeps_file_ret {A} (a : A) : keeps_file (mret a).
Proof. by intros m r m' [= <- <-]. Qed.

Lemma keeps_file_lift {A} (r : result A) : keeps_file (lift r).
Proof. by intros m r' m' [= <- <-]. Qed.

Lemma keeps_file_gets {A} (f : AnalysisState → A) : keeps_file (gets f).
Proof. by intros m r' m' [= <- <-]. Qed.

Lemma keeps_file_modify f : keeps_file (modify f).
Proof. by intros m r' m' [= <- <-]. Qed.

Lemma keeps_file_bind {A B} (c : M A) (f : A → M B) :
  keeps_file c → (∀ a, keeps_file (f a)) → keeps_file (c ≫= f).
Proof.
  intros Hc Hf m r m'. rewrite bind_run.
  destruct (c m) as [[a|e] m1] eqn:Ec; intros E.
  - rewrite (Hf _ _ _ _ E). by eapply Hc.
  - injection E as <- <-. by eapply Hc.
Qed.

Lemma keeps_file_try {A B} (c : M A) (h : M B) (o : A → M B) :
  keeps_file c → keeps_file h → (∀ a, keeps_file (o a)) →
  keeps_file (try_except_else c h o).
Proof.
  intros Hc Hh Ho m r m'. unfold try_except_else.
  destruct (c m) as [[a|e] m1] eqn:Ec; intros E.
  - rewrite (Ho _ _ _ _ E). by eapply Hc.
  - rewrite (Hh _ _ _ E). by eapply Hc.
Qed.

Lemma keeps_file_for_each {A} (l : list A) (body : A → M unit) :
  (∀ x, keeps_file (body x)) → keeps_file (for_each l body).
Proof.
  intros Hb. induction l as [|x l IH]; simpl.
  - apply keeps_file_ret.
  - apply keeps_file_bind; auto.
Qed.

Lemma keeps_file_call sage r : r ≠ Interrupted → keeps_file (call sage r).
Proof. destruct r; [intros _|intros _|done]; by intros m r' m' [= <- <-]. Qed.

Ltac keeps_file_tac :=
  repeat first
    [ apply keeps_file_lift | apply keeps_file_ret | apply keeps_file_gets
    | apply keeps_file_modify
    | apply keeps_file_call; solve [auto]
    | apply keeps_file_for_each; intros
    | apply keeps_file_bind; [|intros]
    | apply keeps_file_try; [| |intros]
    | case_decide ].

Lemma keeps_file_analyze_unreviewed_project py sage project :
  no_signal sage → keeps_file (analyze_unreviewed_project py sage project).
Proof.
  intros (_ & Hversions & Hscans & _).
  unfold analyze_unreviewed_project, analyze_project, analyze_unreviewed_version,
    analyze_version.
  keeps_file_tac.
Qed.

Lemma keeps_file_get_unmapped_scans sage :
  no_signal sage → keeps_file (get_unmapped_scans sage).
Proof. intros (_ & _ & _ & Hunmapped). unfold get_unmapped_scans. keeps_file_tac. Qed.

Lemma keeps_file_on_raise_bind {A B} (c : M A) (f : A → M B) :
  keeps_file c → (∀ a, keeps_file_on_raise (f a)) → keeps_file_on_raise (c ≫= f).
Proof.
  intros Hc Hf m e m'. rewrite bind_run.
  destruct (c m) as [[a|e'] m1] eqn:Ec; intros E.
  - rewrite (Hf _ _ _ _ E). by eapply Hc.
  - injection E as <- <-. by eapply Hc.
Qed.


